(** * Git-Mastery app: fetch-and-execute core ([app/utils/gitmastery.py])

    A shallow embedding of [ExercisesRepo] (the sparse-clone content
    fetcher) and [Namespace] (the dynamic script namespace), followed by
    the properties of the two classes.

    Python code runs against a mutable process: the interpreter settings
    [sys.modules], [sys.path], [sys.dont_write_bytecode], the temporary
    directories alive on disk, and the fetcher object itself.  All of it is
    threaded explicitly through a state-and-exception monad. *)

From Stdlib Require Import Strings.Byte.
From stdpp Require Import gmap strings list fin_maps.

Open Scope string_scope.

(* ===================================================================== *)
(** ** Exceptions and results *)
(* ===================================================================== *)

(** A raised Python exception: its class name and its message. *)
Record Exn := mkExn { exn_class : string; exn_msg : string }.

Global Instance Exn_eq_dec : EqDecision Exn.
Proof. solve_decision. Defined.

Inductive Result (A : Type) : Type :=
  | Ok (a : A)
  | Raise (e : Exn).
Arguments Ok {A} a.
Arguments Raise {A} e.

Definition is_ok {A} (r : Result A) : bool :=
  match r with Ok _ => true | Raise _ => false end.

Definition FileNotFoundError (p : string) : Exn := mkExn "FileNotFoundError" p.
Definition IsADirectoryError (p : string) : Exn := mkExn "IsADirectoryError" p.
Definition UnicodeDecodeError (p : string) : Exn := mkExn "UnicodeDecodeError" p.
Definition AssertionError : Exn := mkExn "AssertionError" "".
Definition GitCommandError (cmd : string) : Exn := mkExn "GitCommandError" cmd.
Definition OSError (what : string) : Exn := mkExn "OSError" what.
Definition ValueError (msg : string) : Exn := mkExn "ValueError" msg.
Definition TypeError (msg : string) : Exn := mkExn "TypeError" msg.

(* ===================================================================== *)
(** ** Python values *)
(* ===================================================================== *)

(** What a read returns: [str] in text mode, [bytes] in binary mode. *)
Inductive Contents :=
  | CStr (s : string)
  | CBytes (b : list byte).

Global Instance byte_eq_dec : EqDecision byte := Byte.byte_eq_dec.

Global Instance Contents_eq_dec : EqDecision Contents.
Proof. solve_decision. Defined.

(** One parameter of a function, as [inspect.signature] lists it: the name,
    and whether it lacks a default.  Parameters are of the ordinary named
    kind, the one that a keyword argument can fill. *)
Record Param := mkParam { p_name : string; p_required : bool }.

(** Top-level bindings of a script.  A function is its declared parameters
    and a handle on its code; running code is the interpreter's business
    (see [Platform]).  Everything that is not a function is data. *)
Inductive PyValue :=
  | VNone
  | VBool (b : bool)
  | VInt (z : Z)
  | VStr (s : string)
  | VObj (id : nat)
  | VFunc (parameters : list Param) (code : nat).

Definition callable (v : PyValue) : bool :=
  match v with VFunc _ _ => true | _ => false end.

(** An entry of [sys.modules]: the identity of a module object. *)
Definition PyModule := nat.

(* ===================================================================== *)
(** ** The clone and the process state *)
(* ===================================================================== *)

Record RemoteSource := mkRemoteSource { to_url : string; branch : string }.

(** A sparse clone ([git.Repo]): where it lives, the tree of the cloned
    branch (path of every blob to its bytes) and the current
    sparse-checkout patterns. *)
Record Repo := mkRepo {
  working_dir : string;
  remote_tree : gmap string (list byte);
  sparse_patterns : list string;
}.

(** The two private attributes of an [ExercisesRepo] object. *)
Record ExercisesRepo := mkExercisesRepo {
  er_repo : option Repo;          (* self.__repo *)
  er_temp_dir : option string;    (* self.__temp_dir (its [name]) *)
}.

Record State := mkState {
  sys_modules : gmap string PyModule;
  sys_path : list string;
  dont_write_bytecode : bool;
  tmpdirs : gset string;            (* temporary directories alive on disk *)
  files : gmap string Contents;     (* local files written by the app *)
  fetcher : ExercisesRepo;          (* the ExercisesRepo object in use *)
}.

Definition set_sys_modules (m : gmap string PyModule) (s : State) : State :=
  mkState m (sys_path s) (dont_write_bytecode s) (tmpdirs s) (files s) (fetcher s).
Definition set_sys_path (p : list string) (s : State) : State :=
  mkState (sys_modules s) p (dont_write_bytecode s) (tmpdirs s) (files s) (fetcher s).
Definition set_dont_write_bytecode (b : bool) (s : State) : State :=
  mkState (sys_modules s) (sys_path s) b (tmpdirs s) (files s) (fetcher s).
Definition set_tmpdirs (t : gset string) (s : State) : State :=
  mkState (sys_modules s) (sys_path s) (dont_write_bytecode s) t (files s) (fetcher s).
Definition set_files (f : gmap string Contents) (s : State) : State :=
  mkState (sys_modules s) (sys_path s) (dont_write_bytecode s) (tmpdirs s) f (fetcher s).
Definition set_fetcher (e : ExercisesRepo) (s : State) : State :=
  mkState (sys_modules s) (sys_path s) (dont_write_bytecode s) (tmpdirs s) (files s) e.

(* ===================================================================== *)
(** ** The state-and-exception monad *)
(* ===================================================================== *)

Definition M (A : Type) : Type := State -> State * Result A.

Definition ret {A} (a : A) : M A := fun s => (s, Ok a).
Definition raise {A} (e : Exn) : M A := fun s => (s, Raise e).
Definition bind {A B} (m : M A) (k : A -> M B) : M B :=
  fun s => match m s with
           | (s', Ok a) => k a s'
           | (s', Raise e) => (s', Raise e)
           end.
Definition get : M State := fun s => (s, Ok s).
Definition modify (f : State -> State) : M unit := fun s => (f s, Ok tt).

Declare Scope py_scope.
Delimit Scope py_scope with py.
Notation "x <- m ;; k" := (bind m (fun x => k))
  (at level 100, m at next level, right associativity) : py_scope.
Notation "m ;;; k" := (bind m (fun _ => k))
  (at level 100, right associativity) : py_scope.
Open Scope py_scope.

(** [try: body finally: fin].  The [finally] suite runs whatever the body
    did; an exception of its own replaces the body's outcome. *)
Definition try_finally {A} (body : M A) (fin : M unit) : M A :=
  fun s => match body s with
           | (s1, r) =>
               match fin s1 with
               | (s2, Ok _) => (s2, r)
               | (s2, Raise e) => (s2, Raise e)
               end
           end.

(** [for x in xs: body x], stopping at the first exception. *)
Fixpoint for_each {A} (xs : list A) (body : A -> M unit) : M unit :=
  match xs with
  | [] => ret tt
  | x :: rest => body x ;;; for_each rest body
  end.

(* ===================================================================== *)
(** ** Paths *)
(* ===================================================================== *)

(** [os.path.join] / [Path.__truediv__] on relative components. *)
Definition path_join (a b : string) : string := a ++ "/" ++ b.

(** [f] lies inside directory [d]. *)
Definition is_under (d f : string) : bool := String.prefix (d ++ "/") f.

(** A pattern selects the path itself and everything below it. *)
Definition selects (pat f : string) : bool := String.eqb pat f || is_under pat f.

Definition selected_by (pats : list string) (f : string) : bool :=
  existsb (fun pat => selects pat f) pats.

(* ===================================================================== *)
(** ** What the process runs on *)
(* ===================================================================== *)

(** A namespace dictionary ([Dict[str, Any]]). *)
Abbreviation Dict := (gmap string PyValue).

(** The collaborators that live outside [gitmastery.py]: the operating
    system, the network, the configuration module and the Python
    interpreter itself.

    - [mkdtemp]: the directory name [tempfile] picks ([None]: the directory
      cannot be created);
    - [clone_from url branch]: the tree a shallow clone obtains ([None]:
      the clone fails);
    - [decode_text]: the locale codec of text-mode reads;
    - [ensure_str]: [app.utils.general.ensure_str];
    - [get_gitmastery_root_config]: the configured exercises source, if a
      configuration is found; [GIT_MASTERY_EXERCISES_SOURCE] the default;
    - [exec_py src globals]: [exec(src, globals)], giving the dictionary as
      the script left it and how the script ended;
    - [run_code code kwargs globals]: a call of a function body with its
      keyword arguments bound, the globals it may rebind, and its outcome. *)
Record Platform := mkPlatform {
  mkdtemp : State -> option string;
  clone_from : string -> string -> option (gmap string (list byte));
  decode_text : list byte -> option string;
  ensure_str : Contents -> string;
  get_gitmastery_root_config : State -> option RemoteSource;
  GIT_MASTERY_EXERCISES_SOURCE : RemoteSource;
  exec_py : Contents -> Dict -> State -> State * Dict * Result unit;
  run_code : nat -> Dict -> Dict -> State -> State * Dict * Result PyValue;
}.

(* ===================================================================== *)
(** ** Temporary directories and local files *)
(* ===================================================================== *)

Definition outside (d : string) (kv : string * Contents) : Prop :=
  is_under d kv.1 = false.

Global Instance outside_dec d kv : Decision (outside d kv).
Proof. unfold outside. apply _. Defined.

(** [tempfile.TemporaryDirectory()] *)
Definition TemporaryDirectory (P : Platform) : M string :=
  fun s => match mkdtemp P s with
           | None => (s, Raise (OSError "mkdtemp"))
           | Some d => (set_tmpdirs ({[d]} ∪ tmpdirs s) s, Ok d)
           end.

(** [TemporaryDirectory.cleanup()]: the directory and what is below it go
    away; nothing happens when the directory is already gone. *)
Definition cleanup (d : string) : M unit :=
  modify (fun s => set_files (filter (outside d) (files s))
                     (set_tmpdirs (tmpdirs s ∖ {[d]}) s)).

(** [with tempfile.TemporaryDirectory() as tmpdir: body tmpdir] *)
Definition with_TemporaryDirectory {A} (P : Platform) (body : string -> M A) : M A :=
  tmpdir <- TemporaryDirectory P ;;
  try_finally (body tmpdir) (cleanup tmpdir).

(** [with open(path, "w") as f: f.write(contents)] *)
Definition write_file (path : string) (contents : Contents) : M unit :=
  modify (fun s => set_files (<[path := contents]> (files s)) s).

(** [os.makedirs(path, exist_ok=True)]: directories are implicit in the
    paths of [files]. *)
Definition makedirs (path : string) : M unit := ret tt.

(* ===================================================================== *)
(** ** git sparse checkout *)
(* ===================================================================== *)

Inductive SparseCmd := SparseSet | SparseAdd.

(** The files a clone has on disk: the blobs its patterns select.  Sparse
    checkout is taken at its word here: a pattern brings in the path it
    names and what lies below it, and nothing else. *)
Definition worktree (r : Repo) : gmap string (list byte) :=
  filter (fun kv => selected_by (sparse_patterns r) kv.1 = true) (remote_tree r).

(** [p] is a directory of the given tree: some blob lies below it. *)
Definition is_dir_of (t : gmap string (list byte)) (p : string) : bool :=
  bool_decide (map_Exists (fun f _ => is_under p f = true) t).

(** [p] names something of the given tree, a blob or a directory. *)
Definition present_in (t : gmap string (list byte)) (p : string) : bool :=
  bool_decide (is_Some (t !! p)) || is_dir_of t p.

(** [os.path.exists(Path(repo.working_dir) / p)] *)
Definition os_path_exists (s : State) (r : Repo) (p : string) : bool :=
  bool_decide (working_dir r ∈ tmpdirs s) && present_in (worktree r) p.

(** [git sparse-checkout <cmd> [--skip-checks] <path>] in the clone [r].
    [set] replaces the patterns, [add] extends them.  Without
    [--skip-checks] git refuses a path that is a file of the tree. *)
Definition git_sparse_checkout (cmd : SparseCmd) (skip_checks : bool)
    (path : string) (r : Repo) : Result Repo :=
  if negb skip_checks && bool_decide (is_Some (remote_tree r !! path))
  then Raise (GitCommandError "sparse-checkout")
  else Ok (mkRepo (working_dir r) (remote_tree r)
             match cmd with
             | SparseSet => [path]
             | SparseAdd => sparse_patterns r ++ [path]
             end).

(** [repo.git.sparse_checkout(...)]: the command runs inside the working
    directory and rewrites the clone the fetcher holds. *)
Definition sparse_checkout (cmd : SparseCmd) (skip_checks : bool)
    (path : string) (r : Repo) : M unit :=
  fun s =>
    if bool_decide (working_dir r ∈ tmpdirs s) then
      match git_sparse_checkout cmd skip_checks path r with
      | Ok r' => (set_fetcher (mkExercisesRepo (Some r') (er_temp_dir (fetcher s))) s, Ok tt)
      | Raise e => (s, Raise e)
      end
    else (s, Raise (GitCommandError "sparse-checkout")).

(* ===================================================================== *)
(** ** class ExercisesRepo *)
(* ===================================================================== *)

Module ExercisesRepo.

(** [__init__]: no clone, no directory yet. *)
Definition __init__ : ExercisesRepo := mkExercisesRepo None None.

(** The [repo] property: [assert self.__repo is not None]. *)
Definition repo : M Repo :=
  fun s => match er_repo (fetcher s) with
           | Some r => (s, Ok r)
           | None => (s, Raise AssertionError)
           end.

Definition checkout (file_path : string) : M unit :=
  r <- repo ;;
  sparse_checkout SparseSet true file_path r.

Definition has_file (file_path : string) : M bool :=
  checkout file_path ;;;
  r <- repo ;;
  s <- get ;;
  ret (os_path_exists s r file_path).

(** [with open(path, read_mode) as file: return file.read()] *)
Definition open_read (P : Platform) (r : Repo) (file_path : string)
    (is_binary : bool) : M Contents :=
  fun s =>
    if os_path_exists s r file_path then
      match worktree r !! file_path with
      | Some bytes =>
          if is_binary then (s, Ok (CBytes bytes))
          else match decode_text P bytes with
               | Some text => (s, Ok (CStr text))
               | None => (s, Raise (UnicodeDecodeError file_path))
               end
      | None => (s, Raise (IsADirectoryError file_path))
      end
    else (s, Raise (FileNotFoundError file_path)).

Definition fetch_file_contents (P : Platform) (file_path : string)
    (is_binary : bool) : M Contents :=
  checkout file_path ;;;
  r <- repo ;;
  open_read P r file_path is_binary.

Definition download_file (P : Platform) (file_path download_to_path : string)
    (is_binary : bool) : M unit :=
  contents <- fetch_file_contents P file_path is_binary ;;
  if is_binary then
    match contents with
    | CBytes _ => write_file download_to_path contents
    | CStr _ => raise AssertionError
    end
  else
    match contents with
    | CStr _ => write_file download_to_path contents
    | CBytes _ => raise AssertionError
    end.

(** The temporary directory is recorded before the clone
    starts; the clone handle only once the clone has succeeded.  A fresh
    sparse clone has no pattern yet.  The [info] message that announces
    the fetch changes nothing in the process and is left out. *)
Definition __enter__ (P : Platform) : M unit :=
  tmp <- TemporaryDirectory P ;;
  modify (fun s => set_fetcher (mkExercisesRepo (er_repo (fetcher s)) (Some tmp)) s) ;;;
  s <- get ;;
  let exercises_source :=
    match get_gitmastery_root_config P s with
    | Some configured => configured
    | None => GIT_MASTERY_EXERCISES_SOURCE P
    end in
  match clone_from P (to_url exercises_source) (branch exercises_source) with
  | Some tree =>
      modify (fun s => set_fetcher
                (mkExercisesRepo (Some (mkRepo tmp tree [])) (er_temp_dir (fetcher s))) s)
  | None => raise (GitCommandError "clone")
  end.



End ExercisesRepo.

(* ===================================================================== *)
(** ** class Namespace *)
(* ===================================================================== *)

Definition EXERCISE_UTILS_FILES : list string :=
  ["__init__"; "cli"; "git"; "file"; "gitmastery"; "github_cli"; "test"].

Record Namespace := mkNamespace { namespace : Dict }.

(** [key == "exercise_utils" or key.startswith("exercise_utils.")] *)
Definition is_exercise_utils (key : string) : bool :=
  String.eqb key "exercise_utils" || String.prefix "exercise_utils." key.

(** [del sys.modules[mod]] *)
Definition del_module (mod_ : string) : M unit :=
  fun s => match sys_modules s !! mod_ with
           | Some _ => (set_sys_modules (delete mod_ (sys_modules s)) s, Ok tt)
           | None => (s, Raise (mkExn "KeyError" mod_))
           end.

(** The purge that [load_file_as_namespace] performs twice: collect the
    helper keys of [sys.modules] first, then delete them one by one. *)
Definition purge_exercise_utils : M unit :=
  s <- get ;;
  let modules_to_remove :=
    filter (fun key => is_exercise_utils key = true) (map_to_list (sys_modules s)).*1 in
  for_each modules_to_remove del_module.

(** [list.remove(x)]: drops the first occurrence, [None] when there is none. *)
Fixpoint list_remove (x : string) (l : list string) : option (list string) :=
  match l with
  | [] => None
  | y :: rest =>
      if String.eqb x y then Some rest
      else match list_remove x rest with
           | Some rest' => Some (y :: rest')
           | None => None
           end
  end.

(** [sys.path.insert(0, d)] and [sys.path.remove(d)] *)
Definition sys_path_insert0 (d : string) : M unit :=
  modify (fun s => set_sys_path (d :: sys_path s) s).

Definition sys_path_remove (d : string) : M unit :=
  fun s => match list_remove d (sys_path s) with
           | Some l => (set_sys_path l s, Ok tt)
           | None => (s, Raise (ValueError "list.remove(x): x not in list"))
           end.

(** [exec(py_file, namespace)] on a dictionary that starts empty. *)
Definition exec_ (P : Platform) (py_file : Contents) : M Dict :=
  fun s => match exec_py P py_file ∅ s with
           | (s', globals, Ok _) => (s', Ok globals)
           | (s', _, Raise e) => (s', Raise e)
           end.

Module Namespace.

(** Lines 125-137: the flag, the fetch of the script, the first purge. *)
Definition load_begin (P : Platform) (file_path : string) : M Contents :=
  modify (set_dont_write_bytecode true) ;;;
  py_file <- ExercisesRepo.fetch_file_contents P file_path false ;;
  purge_exercise_utils ;;;
  ret py_file.

(** Lines 140-150: the helper package is written below [tmpdir], which
    then goes to the front of [sys.path]. *)
Definition install_exercise_utils (P : Platform) (tmpdir : string) : M unit :=
  let package_root := path_join tmpdir "exercise_utils" in
  makedirs package_root ;;;
  for_each EXERCISE_UTILS_FILES (fun filename =>
    exercise_utils_src <-
      ExercisesRepo.fetch_file_contents P ("exercise_utils/" ++ filename ++ ".py") false ;;
    write_file (package_root ++ "/" ++ filename ++ ".py")
      (CStr (ensure_str P exercise_utils_src))) ;;;
  sys_path_insert0 tmpdir.

(** Lines 151-162: the script runs; the [finally] suite takes [tmpdir] off
    [sys.path] and purges again. *)
Definition exec_and_clean (P : Platform) (tmpdir : string) (py_file : Contents) : M Dict :=
  try_finally (exec_ P py_file)
    (sys_path_remove tmpdir ;;; purge_exercise_utils).

Definition load_file_as_namespace (P : Platform) (file_path : string) : M Namespace :=
  py_file <- load_begin P file_path ;;
  namespace <-
    with_TemporaryDirectory P (fun tmpdir =>
      install_exercise_utils P tmpdir ;;;
      exec_and_clean P tmpdir py_file) ;;
  modify (set_dont_write_bytecode false) ;;;
  ret (mkNamespace namespace).

(** [inspect.signature(func)]: only callables have one. *)
Definition inspect_signature (func : PyValue) : Result (list Param) :=
  match func with
  | VFunc parameters _ => Ok parameters
  | _ => Raise (TypeError "is not a callable object")
  end.

Definition in_signature (sig : list Param) (k : string) : bool :=
  existsb (fun p => String.eqb (p_name p) k) sig.

(** [{k: v for k, v in params.items() if k in sig.parameters}] *)
Definition valid_params (sig : list Param) (params : Dict) : Dict :=
  filter (fun kv => in_signature sig kv.1 = true) params.

(** A call with keyword arguments only: every keyword must name a parameter and every
    parameter without a default must be given; then the body runs. *)
Definition call (P : Platform) (func : PyValue) (kwargs : Dict) (globals : Dict)
    : State -> State * Dict * Result PyValue :=
  fun s =>
    match func with
    | VFunc parameters code =>
        if negb (bool_decide (map_Forall (fun k _ => in_signature parameters k = true) kwargs))
        then (s, globals, Raise (TypeError "got an unexpected keyword argument"))
        else if negb (forallb (fun p => negb (p_required p)
                                         || bool_decide (is_Some (kwargs !! p_name p)))
                        parameters)
        then (s, globals, Raise (TypeError "missing required argument"))
        else run_code P code kwargs globals s
    | _ => (s, globals, Raise (TypeError "object is not callable"))
    end.

(** [execute_function]; the dictionary is returned along with the outcome
    because the called function may rebind its globals. *)
Definition execute_function (P : Platform) (self : Namespace)
    (function_name : string) (params : Dict) : State -> State * Namespace * Result PyValue :=
  fun s =>
    match namespace self !! function_name with
    | None => (set_dont_write_bytecode false s, self, Ok VNone)
    | Some func =>
        match inspect_signature func with
        | Raise e => (s, self, Raise e)
        | Ok sig =>
            match call P func (valid_params sig params) (namespace self) s with
            | (s', globals, Ok result) =>
                (set_dont_write_bytecode false s', mkNamespace globals, Ok result)
            | (s', globals, Raise e) => (s', mkNamespace globals, Raise e)
            end
        end
    end.

Definition get_variable (self : Namespace) (variable_name : string)
    (default_value : PyValue) : PyValue :=
  default default_value (namespace self !! variable_name).

(** A run of calls on the same namespace object, one after the other. *)
Fixpoint execute_functions (P : Platform) (self : Namespace)
    (calls : list (string * Dict)) (s : State)
    : State * Namespace * list (Result PyValue) :=
  match calls with
  | [] => (s, self, [])
  | (function_name, params) :: rest =>
      match execute_function P self function_name params s with
      | (s', self', r) =>
          match execute_functions P self' rest s' with
          | (s'', self'', rs) => (s'', self'', r :: rs)
          end
      end
  end.

End Namespace.

(* ===================================================================== *)
(** ** A small concrete process *)
(* ===================================================================== *)

(** One remote repository with an exercise folder and the helper package,
    and an interpreter that knows three scripts.  Used to run the
    definitions on concrete inputs. *)
Module Demo.

Definition verify_src : string :=
  "from exercise_utils.git import commit
def verify(repo_path): return True
LIMIT = 3".

Definition broken_src : string :=
  "import exercise_utils
raise ValueError('boom')".

Definition helper_src (name : string) : string := "# exercise_utils/" ++ name.

Definition tree : gmap string (list byte) :=
  list_to_map
    ([("hello/verify.py", String.list_byte_of_string verify_src);
      ("hello/broken.py", String.list_byte_of_string broken_src);
      ("hello/res/logo.png", [x89; x50; x4e; x47]);
      ("README.md", String.list_byte_of_string "# exercises")]
     ++ map (fun name => ("exercise_utils/" ++ name ++ ".py",
                          String.list_byte_of_string (helper_src name)))
          EXERCISE_UTILS_FILES).

(** ASCII text only. *)
Definition decode (bytes : list byte) : option string :=
  if forallb (fun b => (Byte.to_N b <? 128)%N) bytes
  then Some (String.string_of_list_byte bytes) else None.

(** [verify.py] imports a helper and binds a function and a constant;
    [broken.py] imports the package and raises. *)
Definition exec_script (src : Contents) (globals : Dict) (s : State)
    : State * Dict * Result unit :=
  let globals := <["__builtins__" := VObj 0]> globals in
  if decide (src = CStr verify_src) then
    (set_sys_modules (<["exercise_utils.git" := 2%nat]>
                        (<["exercise_utils" := 1%nat]> (sys_modules s))) s,
     <["LIMIT" := VInt 3]> (<["verify" := VFunc [mkParam "repo_path" true] 0]> globals),
     Ok tt)
  else if decide (src = CStr broken_src) then
    (set_sys_modules (<["exercise_utils" := 1%nat]> (sys_modules s)) s,
     globals, Raise (ValueError "boom"))
  else (s, globals, Ok tt).

(** The body of [verify]: it returns [True]. *)
Definition run (code : nat) (kwargs globals : Dict) (s : State)
    : State * Dict * Result PyValue :=
  (s, globals, Ok (VBool true)).

Definition platform : Platform := {|
  mkdtemp := fun s => Some (if bool_decide ("/tmp/tmp0" ∈ tmpdirs s) then "/tmp/tmp1" else "/tmp/tmp0");
  clone_from := fun url branch => if String.eqb branch "main" then Some tree else None;
  decode_text := decode;
  ensure_str := fun c => match c with CStr s => s | CBytes b => String.string_of_list_byte b end;
  get_gitmastery_root_config := fun _ => None;
  GIT_MASTERY_EXERCISES_SOURCE := mkRemoteSource "https://github.com/git-mastery/exercises.git" "main";
  exec_py := exec_script;
  run_code := run;
|}.


(** A process that has a stale helper module registered. *)
Definition start : State := {|
  sys_modules := {["os" := 7%nat; "exercise_utils.cli" := 9%nat]};
  sys_path := ["/usr/lib/python3"];
  dont_write_bytecode := false;
  tmpdirs := ∅;
  files := ∅;
  fetcher := ExercisesRepo.__init__;
|}.

(** The process once the fetcher has been acquired. *)
Definition acquired : State := (ExercisesRepo.__enter__ platform start).1.

(** The clone it holds then. *)
Definition clone : Repo := mkRepo "/tmp/tmp0" tree [].

(** The namespace that loading [hello/verify.py] gives. *)
Definition verify_namespace : Namespace :=
  match (Namespace.load_file_as_namespace platform "hello/verify.py" acquired).2 with
  | Ok loaded => loaded
  | Raise _ => mkNamespace ∅
  end.

End Demo.

(* ===================================================================== *)
(** ** Vocabulary of the properties *)
(* ===================================================================== *)

(** No key of the registry is ["exercise_utils"] or starts with
    ["exercise_utils."]. *)
Definition registry_clean (modules : gmap string PyModule) : Prop :=
  forall key, is_Some (modules !! key) ->
    key <> "exercise_utils" /\ String.prefix "exercise_utils." key = false.

(** The fetcher holds the clone [r] and its working directory is on disk. *)
Definition acquired (s : State) (r : Repo) : Prop :=
  er_repo (fetcher s) = Some r /\ working_dir r ∈ tmpdirs s.

(** The clone [r] once [git sparse-checkout set] has run for [path]. *)
Definition checked_out (r : Repo) (path : string) : Repo :=
  mkRepo (working_dir r) (remote_tree r) [path].

(** The process once [checkout path] has rewritten the clone [r]. *)
Definition after_checkout (s : State) (r : Repo) (path : string) : State :=
  set_fetcher (mkExercisesRepo (Some (checked_out r path)) (er_temp_dir (fetcher s))) s.

(** A computation that leaves [sys.modules] and [sys.dont_write_bytecode]
    as it found them. *)
Definition keeps_interpreter {A} (m : M A) : Prop :=
  forall s, sys_modules (m s).1 = sys_modules s
            /\ dont_write_bytecode (m s).1 = dont_write_bytecode s.

(** [needle] occurs somewhere in [text]. *)
Fixpoint mentions (needle text : string) : bool :=
  String.prefix needle text ||
  match text with
  | EmptyString => false
  | String _ rest => mentions needle rest
  end.

(** The error the specification calls ScriptExecutionFailure: an exception
    of that class carrying the path of the script. *)
Definition script_execution_failure (script_path : string) (e : Exn) : Prop :=
  exn_class e = "ScriptExecutionFailure" /\ mentions script_path (exn_msg e) = true.

Module NamespaceRun.

(** [load_file_as_namespace] up to the call of [exec]: what it has read
    and the directory it has put on [sys.path]. *)
Definition load_until_exec (P : Platform) (file_path : string) : M (Contents * string) :=
  py_file <- Namespace.load_begin P file_path ;;
  tmpdir <- TemporaryDirectory P ;;
  Namespace.install_exercise_utils P tmpdir ;;;
  ret (py_file, tmpdir).

(** ... and from the call of [exec] on. *)
Definition load_from_exec (P : Platform) (py_file : Contents) (tmpdir : string) : M Namespace :=
  namespace <- try_finally (Namespace.exec_and_clean P tmpdir py_file) (cleanup tmpdir) ;;
  modify (set_dont_write_bytecode false) ;;;
  ret (mkNamespace namespace).

End NamespaceRun.

(** A computation that leaves a given view of the process (one of its
    fields, say) as it found it. *)
Definition preserves {A B} (view : State -> B) (m : M A) : Prop :=
  forall s, view (m s).1 = view s.

(** The same platform with another interpreter for script sources. *)
Definition with_interpreter (P : Platform)
    (exec' : Contents -> Dict -> State -> State * Dict * Result unit) : Platform :=
  mkPlatform (mkdtemp P) (clone_from P) (decode_text P) (ensure_str P)
    (get_gitmastery_root_config P) (GIT_MASTERY_EXERCISES_SOURCE P) exec' (run_code P).

(** Where the helper module [name] goes below [tmpdir], and where it comes
    from in the repository. *)
Definition helper_file (tmpdir name : string) : string :=
  path_join tmpdir "exercise_utils" ++ "/" ++ name ++ ".py".

Definition helper_source (name : string) : string :=
  "exercise_utils/" ++ name ++ ".py".

(* ===================================================================== *)
(** ** The line filter of the REPL ([app/commands/repl.py]) *)
(* ===================================================================== *)

Module GitMasteryREPL.

(** The characters [str.strip()] removes, among ASCII ones: tab to
    carriage return, the four separators 28-31, and the blank. *)
Definition is_space (c : Ascii.ascii) : bool :=
  let n := Ascii.nat_of_ascii c in
  ((9 <=? n)%nat && (n <=? 13)%nat) || ((28 <=? n)%nat && (n <=? 32)%nat).

Fixpoint all_space (s : string) : bool :=
  match s with
  | EmptyString => true
  | String c rest => is_space c && all_space rest
  end.

Fixpoint lstrip (s : string) : string :=
  match s with
  | EmptyString => EmptyString
  | String c rest => if is_space c then lstrip rest else s
  end.

Fixpoint rstrip (s : string) : string :=
  match s with
  | EmptyString => EmptyString
  | String c rest =>
      match rstrip rest with
      | EmptyString => if is_space c then EmptyString else String c EmptyString
      | kept => String c kept
      end
  end.

(** [line.strip()] *)
Definition strip (line : string) : string := lstrip (rstrip line).

(** [s[n:]] *)
Fixpoint drop_chars (n : nat) (s : string) : string :=
  match n, s with
  | O, _ => s
  | S n', String _ rest => drop_chars n' rest
  | S _, EmptyString => EmptyString
  end.

Definition precmd (line : string) : string :=
  let stripped := strip line in
  if String.prefix "gitmastery " stripped
  then drop_chars (String.length "gitmastery ") stripped
  else line.

End GitMasteryREPL.

(** A repository that lacks one helper module, [exercise_utils/test.py]. *)
Module DemoPartial.

Definition tree : gmap string (list byte) := delete "exercise_utils/test.py" Demo.tree.

Definition platform : Platform := {|
  mkdtemp := mkdtemp Demo.platform;
  clone_from := fun url branch => if String.eqb branch "main" then Some tree else None;
  decode_text := Demo.decode;
  ensure_str := ensure_str Demo.platform;
  get_gitmastery_root_config := fun _ => None;
  GIT_MASTERY_EXERCISES_SOURCE := GIT_MASTERY_EXERCISES_SOURCE Demo.platform;
  exec_py := Demo.exec_script;
  run_code := Demo.run;
|}.

Definition acquired : State := (ExercisesRepo.__enter__ platform Demo.start).1.

End DemoPartial.

(* ===================================================================== *)
(** ** Generic facts: the monad, the purge *)
(* ===================================================================== *)

Lemma set_sys_modules_same s : set_sys_modules (sys_modules s) s = s.
Proof. by destruct s. Qed.

Lemma is_exercise_utils_false key :
  is_exercise_utils key = false <->
  key <> "exercise_utils" /\ String.prefix "exercise_utils." key = false.
Proof.
  unfold is_exercise_utils. rewrite orb_false_iff, String.eqb_neq. tauto.
Qed.

Lemma for_each_del_module (l : list string) :
  forall s, NoDup l ->
    (forall k, k ∈ l -> is_Some (sys_modules s !! k)) ->
    exists m', for_each l del_module s = (set_sys_modules m' s, Ok tt) /\
      forall k, m' !! k = if decide (k ∈ l) then None else sys_modules s !! k.
Proof.
  induction l as [|x l IH]; intros s Hnd Hdom.
  - exists (sys_modules s). split.
    + cbn. unfold ret. by rewrite set_sys_modules_same.
    + intros k. case_decide as Hk; [by apply elem_of_nil in Hk | done].
  - apply NoDup_cons in Hnd as [Hx Hnd].
    destruct (Hdom x) as [v Hv]; [left|].
    cbn [for_each]. unfold bind at 1, del_module at 1. rewrite Hv.
    destruct (IH (set_sys_modules (delete x (sys_modules s)) s) Hnd) as (m' & Hrun & Hm').
    { intros k Hk. cbn. rewrite lookup_delete_ne; [apply Hdom; by right|].
      intros ->. contradiction. }
    exists m'. split; [by rewrite Hrun|].
    intros k. rewrite Hm'. cbn.
    destruct (decide (k = x)) as [->|Hne].
    + rewrite lookup_delete_eq.
      destruct (decide (x ∈ x :: l)) as [_|Hn]; [by case_decide|].
      exfalso. apply Hn. left.
    + rewrite lookup_delete_ne by done.
      case_decide as H1; case_decide as H2; try done.
      * exfalso. apply H2. by right.
      * exfalso. apply elem_of_cons in H2 as [?|?]; [done|]. by apply H1.
Qed.

Lemma purge_exercise_utils_spec s :
  exists m', purge_exercise_utils s = (set_sys_modules m' s, Ok tt) /\
    forall k, m' !! k = if is_exercise_utils k then None else sys_modules s !! k.
Proof.
  unfold purge_exercise_utils, bind, get.
  set (l := filter _ _).
  assert (Hl : forall k, k ∈ l <-> is_exercise_utils k = true /\ is_Some (sys_modules s !! k)).
  { intros k. unfold l. rewrite list_elem_of_filter, list_elem_of_fmap. split.
    - intros [Heu [[k' v] [-> Hin]]]. split; [done|].
      apply elem_of_map_to_list in Hin. by exists v.
    - intros [Heu [v Hv]]. split; [done|].
      exists (k, v). split; [done|]. by apply elem_of_map_to_list. }
  destruct (for_each_del_module l s) as (m' & Hrun & Hm').
  { apply NoDup_filter, NoDup_fst_map_to_list. }
  { intros k Hk. by apply Hl in Hk as [_ ?]. }
  exists m'. split; [done|].
  intros k. rewrite Hm'. destruct (is_exercise_utils k) eqn:Heu; case_decide as Hk; try done.
  - destruct (sys_modules s !! k) eqn:Hs; [|done].
    exfalso. apply Hk, Hl. split; [done|by eexists].
  - apply Hl in Hk as [? _]. congruence.
Qed.

Lemma purge_exercise_utils_clean s :
  registry_clean (sys_modules (purge_exercise_utils s).1).
Proof.
  destruct (purge_exercise_utils_spec s) as (m' & -> & Hm').
  intros key [v Hv]. cbn in Hv. rewrite Hm' in Hv.
  apply is_exercise_utils_false. by destruct (is_exercise_utils key).
Qed.

Lemma registry_clean_lookup (m' m : gmap string PyModule) :
  (forall k, m' !! k = if is_exercise_utils k then None else m !! k) ->
  registry_clean m'.
Proof.
  intros Hm' key [v Hv]. rewrite Hm' in Hv.
  apply is_exercise_utils_false. by destruct (is_exercise_utils key).
Qed.

Lemma list_remove_Some x l : x ∈ l -> is_Some (list_remove x l).
Proof.
  induction l as [|y l IH]; intros Hin; [by apply elem_of_nil in Hin|].
  cbn. destruct (String.eqb x y) eqn:E; [by eexists|].
  apply String.eqb_neq in E. apply elem_of_cons in Hin as [?|Hin]; [done|].
  destruct (IH Hin) as [l' ->]. by eexists.
Qed.

Lemma list_remove_None x l : x ∉ l -> list_remove x l = None.
Proof.
  induction l as [|y l IH]; intros Hin; [done|].
  cbn. destruct (String.eqb x y) eqn:E.
  - apply String.eqb_eq in E as ->. exfalso. apply Hin. left.
  - rewrite IH; [done|]. intros ?. apply Hin. by right.
Qed.

(** *** Computations that leave the interpreter settings alone *)

Create HintDb keeps.

Lemma keeps_ret {A} (a : A) : keeps_interpreter (ret a).
Proof. by intros s. Qed.

Lemma keeps_raise {A} e : keeps_interpreter (@raise A e).
Proof. by intros s. Qed.

Lemma keeps_get : keeps_interpreter get.
Proof. by intros s. Qed.

Lemma keeps_bind {A B} (m : M A) (k : A -> M B) :
  keeps_interpreter m -> (forall a, keeps_interpreter (k a)) ->
  keeps_interpreter (bind m k).
Proof.
  intros Hm Hk s. unfold bind. specialize (Hm s).
  destruct (m s) as [s' [a|e]]; cbn in Hm; [|done].
  destruct (Hk a s') as [-> ->]. done.
Qed.

Lemma keeps_for_each {A} (xs : list A) (body : A -> M unit) :
  (forall x, keeps_interpreter (body x)) -> keeps_interpreter (for_each xs body).
Proof.
  intros Hbody. induction xs as [|x xs IH]; cbn.
  - apply keeps_ret.
  - apply keeps_bind; [apply Hbody | intros _; apply IH].
Qed.

Lemma keeps_repo : keeps_interpreter ExercisesRepo.repo.
Proof. intros s. unfold ExercisesRepo.repo. by destruct (er_repo (fetcher s)). Qed.

Lemma keeps_sparse_checkout cmd skip path r :
  keeps_interpreter (sparse_checkout cmd skip path r).
Proof.
  intros s. unfold sparse_checkout.
  case_bool_decide; [|done]. by destruct (git_sparse_checkout cmd skip path r).
Qed.

Lemma keeps_open_read P r path is_binary :
  keeps_interpreter (ExercisesRepo.open_read P r path is_binary).
Proof.
  intros s. unfold ExercisesRepo.open_read.
  destruct (os_path_exists s r path); [|done].
  destruct (worktree r !! path); [|done].
  destruct is_binary; [done|]. by destruct (decode_text P l).
Qed.

Lemma keeps_write_file path contents : keeps_interpreter (write_file path contents).
Proof. by intros s. Qed.

Lemma keeps_TemporaryDirectory P : keeps_interpreter (TemporaryDirectory P).
Proof. intros s. unfold TemporaryDirectory. by destruct (mkdtemp P s). Qed.

Lemma keeps_cleanup d : keeps_interpreter (cleanup d).
Proof. by intros s. Qed.

Lemma keeps_sys_path_insert0 d : keeps_interpreter (sys_path_insert0 d).
Proof. by intros s. Qed.

#[local] Hint Resolve keeps_ret keeps_raise keeps_get keeps_repo
  keeps_sparse_checkout keeps_open_read keeps_write_file
  keeps_TemporaryDirectory keeps_cleanup keeps_sys_path_insert0 : keeps.

Ltac keeps :=
  repeat first
    [ progress eauto with keeps
    | apply keeps_bind
    | apply keeps_for_each
    | intro ].

Lemma keeps_checkout path : keeps_interpreter (ExercisesRepo.checkout path).
Proof. unfold ExercisesRepo.checkout. keeps. Qed.

Lemma keeps_fetch_file_contents P path is_binary :
  keeps_interpreter (ExercisesRepo.fetch_file_contents P path is_binary).
Proof.
  unfold ExercisesRepo.fetch_file_contents.
  apply keeps_bind; [apply keeps_checkout|]. keeps.
Qed.

Lemma keeps_install_exercise_utils P tmpdir :
  keeps_interpreter (Namespace.install_exercise_utils P tmpdir).
Proof.
  unfold Namespace.install_exercise_utils, makedirs.
  apply keeps_bind; [apply keeps_ret|]. intros _.
  apply keeps_bind; [|intros _; apply keeps_sys_path_insert0].
  apply keeps_for_each. intros filename.
  apply keeps_bind; [apply keeps_fetch_file_contents|]. intros src.
  apply keeps_write_file.
Qed.

(** *** The two halves of a load *)

Lemma bind_Ok_inv {A B} (m : M A) (k : A -> M B) s s' b :
  bind m k s = (s', Ok b) ->
  exists s1 a, m s = (s1, Ok a) /\ k a s1 = (s', Ok b).
Proof.
  unfold bind. destruct (m s) as [s1 [a|e]]; [|done]. intros H. by exists s1, a.
Qed.

Lemma load_until_exec_state P file_path s s1 py_file tmpdir :
  NamespaceRun.load_until_exec P file_path s = (s1, Ok (py_file, tmpdir)) ->
  registry_clean (sys_modules s1) /\ dont_write_bytecode s1 = true.
Proof.
  unfold NamespaceRun.load_until_exec, Namespace.load_begin. intros H.
  apply bind_Ok_inv in H as (sb & py & Hbegin & H).
  apply bind_Ok_inv in Hbegin as (s0 & [] & [= <-] & Hbegin).
  apply bind_Ok_inv in Hbegin as (sa & py' & Hfetch & Hbegin).
  apply bind_Ok_inv in Hbegin as (sb' & [] & Hpurge & [= <- <-]).
  apply bind_Ok_inv in H as (sc & d & Htmp & H).
  apply bind_Ok_inv in H as (sd & [] & Hinst & [= <- <- <-]).
  pose proof (keeps_fetch_file_contents P file_path false
                (set_dont_write_bytecode true s)) as [_ Hf0].
  rewrite Hfetch in Hf0. cbn in Hf0.
  destruct (purge_exercise_utils_spec sa) as (m' & Hrun & Hm').
  rewrite Hrun in Hpurge. injection Hpurge as <-.
  pose proof (keeps_TemporaryDirectory P (set_sys_modules m' sa)) as [Hm1 Hf1].
  rewrite Htmp in Hm1, Hf1. cbn in Hm1, Hf1.
  pose proof (keeps_install_exercise_utils P d sc) as [Hm2 Hf2].
  rewrite Hinst in Hm2, Hf2. cbn in Hm2, Hf2.
  split.
  - rewrite Hm2, Hm1. by eapply registry_clean_lookup.
  - by rewrite Hf2, Hf1.
Qed.

Lemma load_split P file_path s s1 py_file tmpdir :
  NamespaceRun.load_until_exec P file_path s = (s1, Ok (py_file, tmpdir)) ->
  Namespace.load_file_as_namespace P file_path s
  = NamespaceRun.load_from_exec P py_file tmpdir s1.
Proof.
  unfold NamespaceRun.load_until_exec. intros H.
  apply bind_Ok_inv in H as (sa & py & Hbegin & H).
  apply bind_Ok_inv in H as (sb & d & Htmp & H).
  apply bind_Ok_inv in H as (sc & [] & Hinst & [= <- <- <-]).
  unfold Namespace.load_file_as_namespace, NamespaceRun.load_from_exec,
    with_TemporaryDirectory.
  unfold bind at 1. rewrite Hbegin.
  unfold bind at 1 2. rewrite Htmp.
  unfold bind at 4. unfold try_finally.
  unfold bind at 1. by rewrite Hinst.
Qed.

Lemma exec_and_clean_kept P tmpdir py_file s1 s2 outcome :
  exec_ P py_file s1 = (s2, outcome) -> tmpdir ∈ sys_path s2 ->
  exists l m',
    list_remove tmpdir (sys_path s2) = Some l /\
    (forall k, m' !! k = if is_exercise_utils k then None else sys_modules s2 !! k) /\
    Namespace.exec_and_clean P tmpdir py_file s1
    = (set_sys_modules m' (set_sys_path l s2), outcome).
Proof.
  intros Hexec Hin. destruct (list_remove_Some _ _ Hin) as [l Hl].
  destruct (purge_exercise_utils_spec (set_sys_path l s2)) as (m' & Hrun & Hm').
  exists l, m'. split; [done|]. split; [done|].
  unfold Namespace.exec_and_clean, try_finally. rewrite Hexec.
  unfold bind, sys_path_remove. rewrite Hl, Hrun. done.
Qed.

Lemma exec_and_clean_lost P tmpdir py_file s1 s2 outcome :
  exec_ P py_file s1 = (s2, outcome) -> tmpdir ∉ sys_path s2 ->
  Namespace.exec_and_clean P tmpdir py_file s1
  = (s2, Raise (ValueError "list.remove(x): x not in list")).
Proof.
  intros Hexec Hin.
  unfold Namespace.exec_and_clean, try_finally. rewrite Hexec.
  unfold bind, sys_path_remove. by rewrite (list_remove_None _ _ Hin).
Qed.

Lemma load_from_exec_kept P tmpdir py_file s1 s2 outcome :
  exec_ P py_file s1 = (s2, outcome) -> tmpdir ∈ sys_path s2 ->
  exists s3,
    registry_clean (sys_modules s3) /\
    dont_write_bytecode s3 = dont_write_bytecode s2 /\
    NamespaceRun.load_from_exec P py_file tmpdir s1
    = match outcome with
      | Ok globals => (set_dont_write_bytecode false s3, Ok (mkNamespace globals))
      | Raise e => (s3, Raise e)
      end.
Proof.
  intros Hexec Hin.
  destruct (exec_and_clean_kept P tmpdir py_file s1 s2 outcome Hexec Hin)
    as (l & m' & _ & Hm' & Hrun).
  eexists (set_files _ (set_tmpdirs _ (set_sys_modules m' (set_sys_path l s2)))).
  split; [cbn; by eapply registry_clean_lookup|]. split; [done|].
  unfold NamespaceRun.load_from_exec, bind, try_finally. rewrite Hrun.
  by destruct outcome.
Qed.

Lemma load_from_exec_lost P tmpdir py_file s1 s2 outcome :
  exec_ P py_file s1 = (s2, outcome) -> tmpdir ∉ sys_path s2 ->
  exists s3,
    sys_modules s3 = sys_modules s2 /\
    dont_write_bytecode s3 = dont_write_bytecode s2 /\
    NamespaceRun.load_from_exec P py_file tmpdir s1
    = (s3, Raise (ValueError "list.remove(x): x not in list")).
Proof.
  intros Hexec Hin.
  eexists (set_files _ (set_tmpdirs _ s2)). split; [done|]. split; [done|].
  unfold NamespaceRun.load_from_exec, bind, try_finally.
  by rewrite (exec_and_clean_lost P tmpdir py_file s1 s2 outcome Hexec Hin).
Qed.

(** The script is fetched before the first purge: a load that fails
    there has purged nothing, and has left the flag set. *)
Lemma load_fetch_failure P file_path s s' e :
  ExercisesRepo.fetch_file_contents P file_path false (set_dont_write_bytecode true s)
  = (s', Raise e) ->
  Namespace.load_file_as_namespace P file_path s = (s', Raise e) /\
  sys_modules s' = sys_modules s /\ dont_write_bytecode s' = true.
Proof.
  intros Hfetch.
  pose proof (keeps_fetch_file_contents P file_path false
                (set_dont_write_bytecode true s)) as [Hm Hf].
  rewrite Hfetch in Hm, Hf. cbn in Hm, Hf. split; [|done].
  unfold Namespace.load_file_as_namespace, Namespace.load_begin, bind, modify.
  by rewrite Hfetch.
Qed.

(* ===================================================================== *)
(** ** Namespace.load_file_as_namespace *)
(* ===================================================================== *)



(** C4, as the code has it.  When the script raises while its source is
    executed, the load fails with the very exception the script raised:
    nothing wraps it and nothing adds the path of the script.  The one case
    where another exception comes out is the [finally] suite failing
    itself, when the directory is no longer on [sys.path]; then the
    [ValueError] of [sys.path.remove] takes its place. *)
Theorem load_reraises_script_exception P file_path s s1 py_file tmpdir s2 e :
  NamespaceRun.load_until_exec P file_path s = (s1, Ok (py_file, tmpdir)) ->
  exec_ P py_file s1 = (s2, Raise e) ->
  (Namespace.load_file_as_namespace P file_path s).2
  = Raise (if bool_decide (tmpdir ∈ sys_path s2) then e
           else ValueError "list.remove(x): x not in list").
Proof.
  intros Hreach Hexec. rewrite (load_split _ _ _ _ _ _ Hreach).
  case_bool_decide as Hin.
  - by destruct (load_from_exec_kept P tmpdir py_file s1 s2 _ Hexec Hin)
      as (s3 & _ & _ & ->).
  - by destruct (load_from_exec_lost P tmpdir py_file s1 s2 _ Hexec Hin)
      as (s3 & _ & _ & ->).
Qed.

Lemma load_reraises_script_exception_witness :
  (Namespace.load_file_as_namespace Demo.platform "hello/broken.py" Demo.acquired).2
  = Raise (ValueError "boom").
Proof.
  pose (s1 := (NamespaceRun.load_until_exec Demo.platform "hello/broken.py" Demo.acquired).1).
  pose (s2 := (exec_ Demo.platform (CStr Demo.broken_src) s1).1).
  rewrite (load_reraises_script_exception Demo.platform "hello/broken.py" Demo.acquired
             s1 (CStr Demo.broken_src) "/tmp/tmp1" s2 (ValueError "boom")).
  - rewrite bool_decide_eq_true_2; [reflexivity|].
    apply list_elem_of_In. vm_compute. by left.
  - vm_compute; reflexivity.
  - vm_compute; reflexivity.
Defined.

(** C4, as the specification words it, fails: [hello/broken.py] raises
    [ValueError('boom')] while it is executed, and that is what comes out
    of the load.  It is no ScriptExecutionFailure, and the path of the
    script occurs nowhere in it. *)
Lemma load_broken_script_not_annotated :
  exists s1 s2,
    NamespaceRun.load_until_exec Demo.platform "hello/broken.py" Demo.acquired
    = (s1, Ok (CStr Demo.broken_src, "/tmp/tmp1")) /\
    exec_ Demo.platform (CStr Demo.broken_src) s1 = (s2, Raise (ValueError "boom")) /\
    (Namespace.load_file_as_namespace Demo.platform "hello/broken.py" Demo.acquired).2
    = Raise (ValueError "boom") /\
    mentions "hello/broken.py" (exn_msg (ValueError "boom")) = false /\
    ~ (exists e,
         (Namespace.load_file_as_namespace Demo.platform "hello/broken.py" Demo.acquired).2
         = Raise e /\ script_execution_failure "hello/broken.py" e).
Proof.
  eexists _, _. split; [vm_compute; reflexivity|].
  split; [vm_compute; reflexivity|].
  assert (Hload : (Namespace.load_file_as_namespace Demo.platform "hello/broken.py"
                     Demo.acquired).2 = Raise (ValueError "boom"))
    by (vm_compute; reflexivity).
  split; [exact Hload|]. split; [reflexivity|].
  intros (e & He & Hclass & _). rewrite Hload in He. injection He as <-.
  discriminate Hclass.
Qed.

(** C9.  The flag [sys.dont_write_bytecode] is [True] when the script
    starts.  If the script raises (and does not touch the flag itself), the
    load ends in an exception with the flag still [True]: no statement of
    the failure path writes it.  If the script returns, the load ends with
    the flag [False].  And whenever [execute_function] returns a result,
    it has set the flag to [False]. *)
Theorem load_leaves_dont_write_bytecode P file_path s s1 py_file tmpdir :
  NamespaceRun.load_until_exec P file_path s = (s1, Ok (py_file, tmpdir)) ->
  dont_write_bytecode s1 = true /\
  (forall s2 e,
     exec_ P py_file s1 = (s2, Raise e) ->
     dont_write_bytecode s2 = dont_write_bytecode s1 ->
     is_ok (Namespace.load_file_as_namespace P file_path s).2 = false /\
     dont_write_bytecode (Namespace.load_file_as_namespace P file_path s).1 = true) /\
  (forall s2 globals,
     exec_ P py_file s1 = (s2, Ok globals) ->
     tmpdir ∈ sys_path s2 ->
     (Namespace.load_file_as_namespace P file_path s).2 = Ok (mkNamespace globals) /\
     dont_write_bytecode (Namespace.load_file_as_namespace P file_path s).1 = false) /\
  (forall self function_name params t t' self' result,
     Namespace.execute_function P self function_name params t = (t', self', Ok result) ->
     dont_write_bytecode t' = false).
Proof.
  intros Hreach.
  destruct (load_until_exec_state _ _ _ _ _ _ Hreach) as [_ Hflag].
  split; [exact Hflag|]. rewrite (load_split _ _ _ _ _ _ Hreach).
  split; [|split].
  - intros s2 e Hexec Hkeep.
    destruct (decide (tmpdir ∈ sys_path s2)) as [Hin|Hin].
    + destruct (load_from_exec_kept P tmpdir py_file s1 s2 _ Hexec Hin)
        as (s3 & _ & Hf & ->). cbn. split; [done|]. congruence.
    + destruct (load_from_exec_lost P tmpdir py_file s1 s2 _ Hexec Hin)
        as (s3 & _ & Hf & ->). cbn. split; [done|]. congruence.
  - intros s2 globals Hexec Hin.
    by destruct (load_from_exec_kept P tmpdir py_file s1 s2 _ Hexec Hin)
      as (s3 & _ & _ & ->).
  - intros self function_name params t t' self' result.
    unfold Namespace.execute_function.
    destruct (namespace self !! function_name) as [func|]; [|by intros [= <- _ _]].
    destruct (Namespace.inspect_signature func) as [sig|e]; [|done].
    destruct (Namespace.call P func _ _ t) as [[t2 globals] [v|e]]; [|done].
    by intros [= <- _ _].
Qed.

Lemma load_leaves_dont_write_bytecode_witness :
  is_ok (Namespace.load_file_as_namespace Demo.platform "hello/broken.py" Demo.acquired).2
  = false /\
  dont_write_bytecode
    (Namespace.load_file_as_namespace Demo.platform "hello/broken.py" Demo.acquired).1
  = true.
Proof.
  pose (s1 := (NamespaceRun.load_until_exec Demo.platform "hello/broken.py" Demo.acquired).1).
  assert (Hreach : NamespaceRun.load_until_exec Demo.platform "hello/broken.py" Demo.acquired
                   = (s1, Ok (CStr Demo.broken_src, "/tmp/tmp1"))) by (vm_compute; reflexivity).
  destruct (load_leaves_dont_write_bytecode _ _ _ _ _ _ Hreach) as (_ & Hraise & _ & _).
  apply (Hraise (exec_ Demo.platform (CStr Demo.broken_src) s1).1 (ValueError "boom")).
  - vm_compute; reflexivity.
  - vm_compute; reflexivity.
Defined.

(* ===================================================================== *)
(** ** Namespace.execute_function *)
(* ===================================================================== *)

Section ExecuteFunction.

Context (P : Platform).

Lemma execute_function_absent self function_name params s :
  namespace self !! function_name = None ->
  Namespace.execute_function P self function_name params s
  = (set_dont_write_bytecode false s, self, Ok VNone).
Proof. intros H. unfold Namespace.execute_function. by rewrite H. Qed.

(** C2.  A name that the namespace does not bind gives [None], not an
    exception, and leaves the namespace as it was; so does every further
    call with that name, whatever parameters each call passes. *)
Theorem execute_function_absent_repeated self function_name (paramss : list Dict) s :
  namespace self !! function_name = None ->
  (forall params,
     Namespace.execute_function P self function_name params s
     = (set_dont_write_bytecode false s, self, Ok VNone)) /\
  (Namespace.execute_functions P self (map (fun params => (function_name, params)) paramss) s).1.2
  = self /\
  (Namespace.execute_functions P self (map (fun params => (function_name, params)) paramss) s).2
  = map (fun _ => Ok VNone) paramss.
Proof.
  intros Habsent. split.
  - intros params. by apply execute_function_absent.
  - revert s. induction paramss as [|params rest IH]; intros s; [done|].
    cbn [map Namespace.execute_functions].
    rewrite execute_function_absent by done.
    specialize (IH (set_dont_write_bytecode false s)).
    destruct (Namespace.execute_functions P self _ _) as [[s' self'] rs].
    cbn in *. destruct IH as [-> ->]. done.
Qed.

Lemma valid_params_lookup sig (params : Dict) k :
  Namespace.valid_params sig params !! k
  = if Namespace.in_signature sig k then params !! k else None.
Proof.
  unfold Namespace.valid_params.
  destruct (Namespace.in_signature sig k) eqn:Hk.
  - destruct (params !! k) as [v|] eqn:Hv.
    + by apply map_lookup_filter_Some.
    + apply map_lookup_filter_None. left. done.
  - apply map_lookup_filter_None. right. intros v _. cbn. congruence.
Qed.

(** Keys that the signature does not declare make no difference. *)
Lemma valid_params_insert_extra sig (params : Dict) k v :
  Namespace.in_signature sig k = false ->
  Namespace.valid_params sig (<[k := v]> params) = Namespace.valid_params sig params.
Proof.
  intros Hk. apply map_eq. intros k'. rewrite !valid_params_lookup.
  destruct (Namespace.in_signature sig k') eqn:Hk'; [|done].
  apply lookup_insert_ne. congruence.
Qed.

Lemma in_signature_param sig p : p ∈ sig -> Namespace.in_signature sig (p_name p) = true.
Proof.
  intros Hp. unfold Namespace.in_signature. apply existsb_exists.
  exists p. split; [by apply list_elem_of_In | apply String.eqb_refl].
Qed.



(** C10.  When the name is bound to something that is not callable,
    [inspect.signature] raises [TypeError]: the call neither returns
    [None] nor the bound value, runs no code and changes nothing, not even
    the flag that the other paths reset. *)
Theorem execute_function_not_callable self function_name value (params : Dict) s :
  namespace self !! function_name = Some value ->
  callable value = false ->
  Namespace.execute_function P self function_name params s
  = (s, self, Raise (TypeError "is not a callable object")).
Proof.
  intros Hbound Hdata. unfold Namespace.execute_function. rewrite Hbound.
  by destruct value.
Qed.

End ExecuteFunction.

Lemma execute_function_absent_repeated_witness :
  (Namespace.execute_functions Demo.platform Demo.verify_namespace
     [("setup", ∅); ("setup", {["repo_path" := VStr "/tmp/x"]}); ("setup", ∅)]
     Demo.acquired).2
  = [Ok VNone; Ok VNone; Ok VNone].
Proof.
  refine (proj2 (proj2 (execute_function_absent_repeated Demo.platform
            Demo.verify_namespace "setup" [∅; {["repo_path" := VStr "/tmp/x"]}; ∅]
            Demo.acquired _))).
  vm_compute; reflexivity.
Defined.


Lemma execute_function_not_callable_witness :
  Namespace.execute_function Demo.platform Demo.verify_namespace "LIMIT" ∅ Demo.acquired
  = (Demo.acquired, Demo.verify_namespace, Raise (TypeError "is not a callable object")).
Proof.
  apply (execute_function_not_callable Demo.platform Demo.verify_namespace "LIMIT" (VInt 3)).
  - vm_compute; reflexivity.
  - reflexivity.
Defined.

(* ===================================================================== *)
(** ** ExercisesRepo: checkout, has_file, fetch_file_contents *)
(* ===================================================================== *)

Section Checkout.

Implicit Types (s : State) (r : Repo) (path : string).

Lemma checkout_acquired s r path :
  acquired s r ->
  ExercisesRepo.checkout path s = (after_checkout s r path, Ok tt).
Proof.
  intros [Hrepo Hlive].
  unfold ExercisesRepo.checkout, bind, ExercisesRepo.repo, sparse_checkout.
  rewrite Hrepo. by rewrite bool_decide_eq_true_2.
Qed.


Lemma selected_by_single path f : selected_by [path] f = selects path f.
Proof. unfold selected_by. cbn. apply orb_false_r. Qed.

Lemma worktree_checked_out r path f :
  worktree (checked_out r path) !! f
  = if selects path f then remote_tree r !! f else None.
Proof.
  unfold worktree, checked_out. cbn [sparse_patterns remote_tree].
  destruct (selects path f) eqn:Hsel.
  - destruct (remote_tree r !! f) as [b|] eqn:Hf.
    + apply map_lookup_filter_Some. split; [done|].
      change (selected_by [path] f = true). by rewrite selected_by_single.
    + apply map_lookup_filter_None. by left.
  - apply map_lookup_filter_None. right. intros b _.
    change (selected_by [path] f <> true). rewrite selected_by_single. congruence.
Qed.





Lemma selects_refl path : selects path path = true.
Proof. unfold selects. by rewrite String.eqb_refl. Qed.

End Checkout.


Lemma demo_acquired : acquired Demo.acquired Demo.clone.
Proof. split; vm_compute; reflexivity. Qed.






(* ===================================================================== *)
(** ** ExercisesRepo: acquisition and release *)
(* ===================================================================== *)







(* ===================================================================== *)
(** ** The definitions at work *)
(* ===================================================================== *)

(** Acquisition clones into a fresh temporary directory. *)
Example enter_demo :
  (ExercisesRepo.__enter__ Demo.platform Demo.start).2 = Ok tt /\
  fetcher Demo.acquired = mkExercisesRepo (Some Demo.clone) (Some "/tmp/tmp0").
Proof. split; vm_compute; reflexivity. Qed.

(** A directory of the repository exists; reading it is an error of its
    own kind, and so is reading an image as text. *)
Example has_file_directory :
  (ExercisesRepo.has_file "hello" Demo.acquired).2 = Ok true.
Proof. vm_compute; reflexivity. Qed.

Example fetch_directory :
  (ExercisesRepo.fetch_file_contents Demo.platform "hello" false Demo.acquired).2
  = Raise (IsADirectoryError "hello").
Proof. vm_compute; reflexivity. Qed.

Example fetch_image_as_text :
  (ExercisesRepo.fetch_file_contents Demo.platform "hello/res/logo.png" false Demo.acquired).2
  = Raise (UnicodeDecodeError "hello/res/logo.png") /\
  (ExercisesRepo.fetch_file_contents Demo.platform "hello/res/logo.png" true Demo.acquired).2
  = Ok (CBytes [x89; x50; x4e; x47]).
Proof. split; vm_compute; reflexivity. Qed.

Example fetch_missing :
  (ExercisesRepo.fetch_file_contents Demo.platform "hello/setup.py" false Demo.acquired).2
  = Raise (FileNotFoundError "hello/setup.py").
Proof. vm_compute; reflexivity. Qed.

(** Before acquisition the [repo] property fails its assertion. *)
Example has_file_unacquired :
  (ExercisesRepo.has_file "hello" Demo.start).2 = Raise AssertionError.
Proof. vm_compute; reflexivity. Qed.

(** Loading [hello/verify.py]: three bindings come back, the stale helper
    module and the two the script imported are gone, [sys.path] is as it
    was, the flag is off, and the directory of the helper package has been
    deleted with its seven files. *)
Example load_verify :
  let after := Namespace.load_file_as_namespace Demo.platform "hello/verify.py" Demo.acquired in
  after.2 = Ok (mkNamespace {[ "__builtins__" := VObj 0;
                              "verify" := VFunc [mkParam "repo_path" true] 0;
                              "LIMIT" := VInt 3 ]}) /\
  sys_modules after.1 = {[ "os" := 7%nat ]} /\
  sys_path after.1 = ["/usr/lib/python3"] /\
  dont_write_bytecode after.1 = false /\
  tmpdirs after.1 = {[ "/tmp/tmp0" ]} /\
  files after.1 = ∅.
Proof. repeat split; vm_compute; reflexivity. Qed.

(** The helper package is on disk, at the head of [sys.path], while the
    script runs. *)
Example load_verify_at_exec :
  let before := (NamespaceRun.load_until_exec Demo.platform "hello/verify.py" Demo.acquired).1 in
  sys_path before = ["/tmp/tmp1"; "/usr/lib/python3"] /\
  files before !! "/tmp/tmp1/exercise_utils/git.py" = Some (CStr "# exercise_utils/git") /\
  size (files before) = 7.
Proof. repeat split; vm_compute; reflexivity. Qed.

(** A script path that the repository does not have: the load stops at
    the first fetch, before any purge. *)
Example load_missing_script :
  let after := Namespace.load_file_as_namespace Demo.platform "hello/setup.py" Demo.acquired in
  after.2 = Raise (FileNotFoundError "hello/setup.py") /\
  sys_modules after.1 !! "exercise_utils.cli" = Some 9%nat /\
  dont_write_bytecode after.1 = true.
Proof. repeat split; vm_compute; reflexivity. Qed.

Example get_variable_demo :
  Namespace.get_variable Demo.verify_namespace "LIMIT" VNone = VInt 3 /\
  Namespace.get_variable Demo.verify_namespace "TIMEOUT" (VInt 10) = VInt 10.
Proof. split; vm_compute; reflexivity. Qed.

(* ===================================================================== *)
(** ** More on ExercisesRepo *)
(* ===================================================================== *)



Lemma fetch_file_contents_run P s r path is_binary :
  acquired s r ->
  ExercisesRepo.fetch_file_contents P path is_binary s
  = ExercisesRepo.open_read P (checked_out r path) path is_binary (after_checkout s r path).
Proof.
  intros Hacq. unfold ExercisesRepo.fetch_file_contents. unfold bind at 1.
  by rewrite (checkout_acquired s r path Hacq).
Qed.

Lemma open_read_state P r path is_binary s :
  (ExercisesRepo.open_read P r path is_binary s).1 = s.
Proof.
  unfold ExercisesRepo.open_read.
  destruct (os_path_exists s r path); [|done].
  destruct (worktree r !! path) as [bytes|]; [|done].
  destruct is_binary; [done|]. by destruct (decode_text P bytes).
Qed.






(** Before any acquisition every operation of the fetcher stops at the
    assertion of the [repo] property, with the process untouched; a load
    stops there too, having already set [sys.dont_write_bytecode]. *)
Theorem unacquired_operations_fail P s path dest is_binary :
  er_repo (fetcher s) = None ->
  ExercisesRepo.checkout path s = (s, Raise AssertionError) /\
  ExercisesRepo.has_file path s = (s, Raise AssertionError) /\
  ExercisesRepo.fetch_file_contents P path is_binary s = (s, Raise AssertionError) /\
  ExercisesRepo.download_file P path dest is_binary s = (s, Raise AssertionError) /\
  Namespace.load_file_as_namespace P path s
  = (set_dont_write_bytecode true s, Raise AssertionError).
Proof.
  intros Hnone.
  assert (Hco : forall s', er_repo (fetcher s') = None ->
                  ExercisesRepo.checkout path s' = (s', Raise AssertionError)).
  { intros s' H. unfold ExercisesRepo.checkout, bind, ExercisesRepo.repo. by rewrite H. }
  assert (Hfetch : forall s', er_repo (fetcher s') = None ->
            ExercisesRepo.fetch_file_contents P path is_binary s' = (s', Raise AssertionError)).
  { intros s' H. unfold ExercisesRepo.fetch_file_contents. unfold bind at 1.
    by rewrite (Hco s' H). }
  split; [by apply Hco|]. split; [|split; [by apply Hfetch|split]].
  - unfold ExercisesRepo.has_file. unfold bind at 1. by rewrite Hco.
  - unfold ExercisesRepo.download_file, bind. by rewrite Hfetch.
  - unfold Namespace.load_file_as_namespace, Namespace.load_begin, bind, modify.
    unfold ExercisesRepo.fetch_file_contents, ExercisesRepo.checkout, bind,
      ExercisesRepo.repo. cbn. by rewrite Hnone.
Qed.

Lemma unacquired_operations_fail_witness :
  ExercisesRepo.has_file "hello" Demo.start = (Demo.start, Raise AssertionError) /\
  Namespace.load_file_as_namespace Demo.platform "hello/verify.py" Demo.start
  = (set_dont_write_bytecode true Demo.start, Raise AssertionError).
Proof.
  destruct (unacquired_operations_fail Demo.platform Demo.start "hello" "out" false)
    as (_ & Hhas & _); [reflexivity|].
  destruct (unacquired_operations_fail Demo.platform Demo.start "hello/verify.py" "out" false)
    as (_ & _ & _ & _ & Hload); [reflexivity|].
  by split.
Defined.









(* ===================================================================== *)
(** ** More on load_file_as_namespace *)
(* ===================================================================== *)

Section Preserves.

Context {B : Type} (view : State -> B).

Lemma preserves_ret {A} (a : A) : preserves view (ret a).
Proof. by intros s. Qed.

Lemma preserves_bind {A C} (m : M A) (k : A -> M C) :
  preserves view m -> (forall a, preserves view (k a)) -> preserves view (bind m k).
Proof.
  intros Hm Hk s. unfold bind. specialize (Hm s).
  destruct (m s) as [s' [a|e]]; cbn in Hm; [|done]. by rewrite Hk.
Qed.

Lemma preserves_for_each {A} (xs : list A) (body : A -> M unit) :
  (forall x, preserves view (body x)) -> preserves view (for_each xs body).
Proof.
  intros Hbody. induction xs as [|x xs IH]; cbn.
  - apply preserves_ret.
  - apply preserves_bind; [apply Hbody | intros _; apply IH].
Qed.

(** Views that do not look at the fetcher survive every fetch. *)
Hypothesis view_fetcher : forall e s, view (set_fetcher e s) = view s.

Lemma preserves_checkout path : preserves view (ExercisesRepo.checkout path).
Proof.
  intros s. unfold ExercisesRepo.checkout, bind, ExercisesRepo.repo, sparse_checkout.
  destruct (er_repo (fetcher s)) as [r|]; [|done].
  case_bool_decide; [|done].
  destruct (git_sparse_checkout _ _ _ _); [apply view_fetcher|done].
Qed.

Lemma preserves_fetch_file_contents P path is_binary :
  preserves view (ExercisesRepo.fetch_file_contents P path is_binary).
Proof.
  intros s. unfold ExercisesRepo.fetch_file_contents. unfold bind at 1.
  pose proof (preserves_checkout path s) as Hco.
  destruct (ExercisesRepo.checkout path s) as [s1 [[]|e]]; cbn in Hco; [|done].
  unfold bind, ExercisesRepo.repo.
  destruct (er_repo (fetcher s1)) as [r|]; [|done].
  by rewrite open_read_state.
Qed.

(** Views that do not look at the registry survive the purge. *)
Hypothesis view_modules : forall m s, view (set_sys_modules m s) = view s.

Lemma preserves_purge : preserves view purge_exercise_utils.
Proof.
  intros s. destruct (purge_exercise_utils_spec s) as (m' & -> & _). apply view_modules.
Qed.

Hypothesis view_flag : forall b s, view (set_dont_write_bytecode b s) = view s.

Lemma preserves_load_begin P path : preserves view (Namespace.load_begin P path).
Proof.
  unfold Namespace.load_begin.
  apply preserves_bind; [intros s; apply view_flag|]. intros _.
  apply preserves_bind; [apply preserves_fetch_file_contents|]. intros py.
  apply preserves_bind; [apply preserves_purge|]. intros _. apply preserves_ret.
Qed.

End Preserves.

Lemma install_loop_preserves {B} (view : State -> B) P tmpdir :
  (forall e s, view (set_fetcher e s) = view s) ->
  (forall f s, view (set_files f s) = view s) ->
  preserves view
    (for_each EXERCISE_UTILS_FILES (fun filename =>
       exercise_utils_src <-
         ExercisesRepo.fetch_file_contents P ("exercise_utils/" ++ filename ++ ".py") false ;;
       write_file (path_join tmpdir "exercise_utils" ++ "/" ++ filename ++ ".py")
         (CStr (ensure_str P exercise_utils_src)))).
Proof.
  intros Hfetcher Hfiles. apply preserves_for_each. intros filename.
  apply preserves_bind; [by apply preserves_fetch_file_contents|].
  intros src t. apply Hfiles.
Qed.

Lemma install_exercise_utils_sys_path P tmpdir s s' :
  Namespace.install_exercise_utils P tmpdir s = (s', Ok tt) ->
  sys_path s' = tmpdir :: sys_path s.
Proof.
  unfold Namespace.install_exercise_utils, makedirs. intros H.
  apply bind_Ok_inv in H as (s0 & [] & [= <-] & H).
  apply bind_Ok_inv in H as (s1 & [] & Hloop & [= <-]).
  cbn. f_equal.
  pose proof (install_loop_preserves sys_path P tmpdir
                (fun _ _ => eq_refl) (fun _ _ => eq_refl) s) as Hpres.
  by rewrite Hloop in Hpres.
Qed.

Lemma install_exercise_utils_failure P tmpdir s s' e :
  Namespace.install_exercise_utils P tmpdir s = (s', Raise e) ->
  sys_path s' = sys_path s.
Proof.
  unfold Namespace.install_exercise_utils, makedirs. unfold bind at 1, ret at 1.
  unfold bind at 1.
  pose proof (install_loop_preserves sys_path P tmpdir
                (fun _ _ => eq_refl) (fun _ _ => eq_refl) s) as Hpres.
  destruct (for_each _ _ s) as [s1 [[]|e1]]; cbn in Hpres.
  - done.
  - by intros [= <- _].
Qed.

Lemma load_until_exec_sys_path P file_path s s1 py_file tmpdir :
  NamespaceRun.load_until_exec P file_path s = (s1, Ok (py_file, tmpdir)) ->
  sys_path s1 = tmpdir :: sys_path s.
Proof.
  unfold NamespaceRun.load_until_exec. intros H.
  apply bind_Ok_inv in H as (sa & py & Hbegin & H).
  apply bind_Ok_inv in H as (sb & d & Htmp & H).
  apply bind_Ok_inv in H as (sc & [] & Hinst & [= <- <- <-]).
  rewrite (install_exercise_utils_sys_path P d sb sc Hinst). f_equal.
  pose proof (preserves_load_begin sys_path (fun _ _ => eq_refl) (fun _ _ => eq_refl)
                (fun _ _ => eq_refl) P file_path s) as H1.
  rewrite Hbegin in H1. cbn in H1. rewrite <- H1.
  unfold TemporaryDirectory in Htmp. destruct (mkdtemp P sa); [|done].
  by injection Htmp as <- _.
Qed.

Lemma list_remove_head x l : list_remove x (x :: l) = Some l.
Proof. cbn. by rewrite String.eqb_refl. Qed.

Lemma load_from_exec_run P tmpdir py_file s1 s2 outcome l :
  exec_ P py_file s1 = (s2, outcome) ->
  list_remove tmpdir (sys_path s2) = Some l ->
  exists m',
    (forall k, m' !! k = if is_exercise_utils k then None else sys_modules s2 !! k) /\
    let s3 := (cleanup tmpdir (set_sys_modules m' (set_sys_path l s2))).1 in
    NamespaceRun.load_from_exec P py_file tmpdir s1
    = match outcome with
      | Ok globals => (set_dont_write_bytecode false s3, Ok (mkNamespace globals))
      | Raise e => (s3, Raise e)
      end.
Proof.
  intros Hexec Hl.
  destruct (purge_exercise_utils_spec (set_sys_path l s2)) as (m' & Hrun & Hm').
  exists m'. split; [done|]. cbn zeta.
  unfold NamespaceRun.load_from_exec, Namespace.exec_and_clean.
  unfold bind at 1. unfold try_finally. rewrite Hexec.
  unfold bind at 1, sys_path_remove. rewrite Hl, Hrun.
  by destruct outcome.
Qed.

(** A load hands [sys.path] back as it found it.  The directory goes in
    at the front and the first occurrence is what [remove] takes out, so
    for a script that leaves [sys.path] alone the list after the load is
    the list before it, whether the script returned or raised. *)
Theorem load_restores_sys_path P file_path s s1 py_file tmpdir s2 outcome :
  NamespaceRun.load_until_exec P file_path s = (s1, Ok (py_file, tmpdir)) ->
  exec_ P py_file s1 = (s2, outcome) ->
  sys_path s2 = sys_path s1 ->
  sys_path s1 = tmpdir :: sys_path s /\
  sys_path (Namespace.load_file_as_namespace P file_path s).1 = sys_path s.
Proof.
  intros Hreach Hexec Hkeep.
  pose proof (load_until_exec_sys_path _ _ _ _ _ _ Hreach) as Hs1.
  split; [done|]. rewrite (load_split _ _ _ _ _ _ Hreach).
  destruct (load_from_exec_run P tmpdir py_file s1 s2 outcome (sys_path s))
    as (m' & _ & ->); [done| by rewrite Hkeep, Hs1, list_remove_head |].
  by destruct outcome.
Qed.

Lemma load_restores_sys_path_witness :
  sys_path (Namespace.load_file_as_namespace Demo.platform "hello/verify.py" Demo.acquired).1
  = sys_path Demo.acquired.
Proof.
  pose (s1 := (NamespaceRun.load_until_exec Demo.platform "hello/verify.py" Demo.acquired).1).
  refine (proj2 (load_restores_sys_path Demo.platform "hello/verify.py" Demo.acquired s1
            (CStr Demo.verify_src) "/tmp/tmp1"
            (exec_ Demo.platform (CStr Demo.verify_src) s1).1
            (exec_ Demo.platform (CStr Demo.verify_src) s1).2 _ _ _)).
  - vm_compute; reflexivity.
  - by destruct (exec_ Demo.platform (CStr Demo.verify_src) s1).
  - vm_compute; reflexivity.
Defined.

(** A load never unloads anything but the helper package: a module whose
    name is neither [exercise_utils] nor below it is registered after the
    load exactly if it was when the script ended, with the same module
    object; the helper entries are gone. *)
Theorem load_purges_only_exercise_utils P file_path s s1 py_file tmpdir s2 outcome :
  NamespaceRun.load_until_exec P file_path s = (s1, Ok (py_file, tmpdir)) ->
  exec_ P py_file s1 = (s2, outcome) ->
  tmpdir ∈ sys_path s2 ->
  forall key,
    sys_modules (Namespace.load_file_as_namespace P file_path s).1 !! key
    = if is_exercise_utils key then None else sys_modules s2 !! key.
Proof.
  intros Hreach Hexec Hin key. rewrite (load_split _ _ _ _ _ _ Hreach).
  destruct (list_remove_Some _ _ Hin) as [l Hl].
  destruct (load_from_exec_run P tmpdir py_file s1 s2 outcome l Hexec Hl)
    as (m' & Hm' & ->).
  destruct outcome; cbn; apply Hm'.
Qed.

Lemma load_purges_only_exercise_utils_witness :
  sys_modules (Namespace.load_file_as_namespace Demo.platform "hello/verify.py"
                 Demo.acquired).1 !! "os"
  = Some 7%nat.
Proof.
  pose (s1 := (NamespaceRun.load_until_exec Demo.platform "hello/verify.py" Demo.acquired).1).
  rewrite (load_purges_only_exercise_utils Demo.platform "hello/verify.py" Demo.acquired s1
             (CStr Demo.verify_src) "/tmp/tmp1"
             (exec_ Demo.platform (CStr Demo.verify_src) s1).1
             (exec_ Demo.platform (CStr Demo.verify_src) s1).2).
  - vm_compute; reflexivity.
  - vm_compute; reflexivity.
  - by destruct (exec_ Demo.platform (CStr Demo.verify_src) s1).
  - apply list_elem_of_In. vm_compute. by left.
Defined.

Lemma string_length_app (a b : string) :
  String.length (a ++ b) = (String.length a + String.length b)%nat.
Proof. induction a as [|c a IH]; simpl; [done|]. by f_equal. Qed.

Lemma string_app_inj_r (a b c : string) : a ++ c = b ++ c -> a = b.
Proof.
  revert b. induction a as [|x a IH]; intros [|y b] H.
  - done.
  - apply (f_equal String.length) in H. rewrite !string_length_app in H.
    simpl in H. lia.
  - apply (f_equal String.length) in H. rewrite !string_length_app in H.
    simpl in H. lia.
  - simpl in H. injection H as -> H. f_equal. by apply IH.
Qed.

Lemma helper_file_inj tmpdir name name' :
  helper_file tmpdir name = helper_file tmpdir name' -> name = name'.
Proof.
  unfold helper_file. intros H.
  apply (inj (String.app _)) in H. apply (inj (String.app _)) in H.
  by apply string_app_inj_r in H.
Qed.

Lemma string_append_assoc (a b c : string) : (a ++ b) ++ c = a ++ b ++ c.
Proof.
  induction a as [|x a IH]; [reflexivity|].
  change (String x ((a ++ b) ++ c) = String x (a ++ b ++ c)). by f_equal.
Qed.

Lemma helper_file_under tmpdir name : is_under tmpdir (helper_file tmpdir name) = true.
Proof.
  unfold is_under, helper_file, path_join.
  assert (Hpre : forall a b, String.prefix a (a ++ b) = true).
  { intros a b. induction a as [|c a IH]; simpl; [by destruct b|].
    destruct (Ascii.ascii_dec c c); [exact IH|congruence]. }
  replace ((tmpdir ++ "/" ++ "exercise_utils") ++ "/" ++ name ++ ".py")
    with ((tmpdir ++ "/") ++ "exercise_utils" ++ "/" ++ name ++ ".py"); [apply Hpre|].
  by rewrite !string_append_assoc.
Qed.

Lemma fetch_text_Ok_inv P s r path s' contents :
  acquired s r ->
  ExercisesRepo.fetch_file_contents P path false s = (s', Ok contents) ->
  s' = after_checkout s r path /\
  exists bytes text,
    remote_tree r !! path = Some bytes /\ decode_text P bytes = Some text /\
    contents = CStr text.
Proof.
  intros Hacq. rewrite (fetch_file_contents_run P s r path false Hacq).
  unfold ExercisesRepo.open_read.
  destruct (os_path_exists _ _ _); [|done].
  rewrite worktree_checked_out, selects_refl.
  destruct (remote_tree r !! path) as [bytes|]; [|done].
  destruct (decode_text P bytes) as [text|] eqn:Hdec; [|done].
  intros [= <- <-]. split; [done|]. by exists bytes, text.
Qed.

(** What the loop over the helper modules leaves on disk. *)
Lemma install_loop_files P tmpdir (names : list string) :
  forall s r s',
    acquired s r ->
    for_each names (fun filename =>
       exercise_utils_src <-
         ExercisesRepo.fetch_file_contents P ("exercise_utils/" ++ filename ++ ".py") false ;;
       write_file (path_join tmpdir "exercise_utils" ++ "/" ++ filename ++ ".py")
         (CStr (ensure_str P exercise_utils_src))) s = (s', Ok tt) ->
    (forall name, name ∈ names ->
       exists bytes text,
         remote_tree r !! helper_source name = Some bytes /\
         decode_text P bytes = Some text /\
         files s' !! helper_file tmpdir name = Some (CStr (ensure_str P (CStr text)))) /\
    (forall p, (forall name, name ∈ names -> p <> helper_file tmpdir name) ->
       files s' !! p = files s !! p).
Proof.
  induction names as [|name names IH]; intros s r s' Hacq Hrun.
  - injection Hrun as <-. split; [|done]. intros name Hin. by apply elem_of_nil in Hin.
  - cbn [for_each] in Hrun.
    apply bind_Ok_inv in Hrun as (s1 & [] & Hbody & Hrest).
    apply bind_Ok_inv in Hbody as (s0 & src & Hfetch & Hwrite).
    destruct (fetch_text_Ok_inv P s r _ s0 src Hacq Hfetch)
      as (-> & bytes & text & Hblob & Hdec & ->).
    injection Hwrite as <-.
    set (s1 := set_files _ _) in Hrest.
    assert (Hacq1 : acquired s1 (checked_out r ("exercise_utils/" ++ name ++ ".py"))).
    { destruct Hacq as [_ Hlive]. by split. }
    destruct (IH s1 _ s' Hacq1 Hrest) as [Hin Hout]. split.
    + intros n Hn. apply elem_of_cons in Hn as [-> | Hn]; [|by apply Hin].
      destruct (decide (name ∈ names)) as [Hmem|Hmem]; [by apply Hin|].
      exists bytes, text. split; [done|]. split; [done|].
      rewrite Hout.
      * apply lookup_insert_eq.
      * intros n Hn Heq. apply helper_file_inj in Heq as ->. contradiction.
    + intros p Hp. rewrite Hout.
      * apply lookup_insert_ne. intros Heq. apply (Hp name); [left|done].
      * intros n Hn. apply Hp. by right.
Qed.

Lemma load_begin_run P s r path bytes text :
  acquired s r ->
  remote_tree r !! path = Some bytes ->
  decode_text P bytes = Some text ->
  exists m',
    (forall k, m' !! k = if is_exercise_utils k then None else sys_modules s !! k) /\
    Namespace.load_begin P path s
    = (set_sys_modules m' (after_checkout (set_dont_write_bytecode true s) r path),
       Ok (CStr text)).
Proof.
  intros Hacq Hblob Hdec.
  assert (Hacq' : acquired (set_dont_write_bytecode true s) r) by (by destruct Hacq).
  destruct (purge_exercise_utils_spec
              (after_checkout (set_dont_write_bytecode true s) r path))
    as (m' & Hrun & Hm').
  exists m'. split; [exact Hm'|].
  unfold Namespace.load_begin. unfold bind at 1, modify at 1. unfold bind at 1.
  rewrite (fetch_file_contents_run P _ r path false Hacq').
  unfold ExercisesRepo.open_read.
  assert (Hwt : worktree (checked_out r path) !! path = Some bytes)
    by (by rewrite worktree_checked_out, selects_refl).
  assert (Hex : os_path_exists (after_checkout (set_dont_write_bytecode true s) r path)
                  (checked_out r path) path = true).
  { unfold os_path_exists, present_in. apply andb_true_iff.
    split; [destruct Hacq as [_ ?]; by apply bool_decide_eq_true|].
    apply orb_true_iff. left. apply bool_decide_eq_true. rewrite Hwt. by eexists. }
  rewrite Hex, Hwt, Hdec. unfold bind. by rewrite Hrun.
Qed.

Lemma load_begin_inv P s r path sa py_file :
  acquired s r ->
  Namespace.load_begin P path s = (sa, Ok py_file) ->
  (exists bytes text, remote_tree r !! path = Some bytes /\
     decode_text P bytes = Some text /\ py_file = CStr text) /\
  acquired sa (checked_out r path) /\
  tmpdirs sa = tmpdirs s /\ files sa = files s.
Proof.
  intros Hacq Hbegin. unfold Namespace.load_begin in Hbegin.
  apply bind_Ok_inv in Hbegin as (s0 & [] & [= <-] & Hbegin).
  apply bind_Ok_inv in Hbegin as (s1 & py' & Hfetch & Hbegin).
  apply bind_Ok_inv in Hbegin as (s2 & [] & Hpurge & [= <- <-]).
  assert (Hacq' : acquired (set_dont_write_bytecode true s) r) by (by destruct Hacq).
  destruct (fetch_text_Ok_inv P _ r path s1 py' Hacq' Hfetch)
    as (-> & bytes & text & Hblob & Hdec & ->).
  destruct (purge_exercise_utils_spec
              (after_checkout (set_dont_write_bytecode true s) r path))
    as (m' & Hrun & _).
  rewrite Hrun in Hpurge. injection Hpurge as <-.
  split; [by exists bytes, text|]. destruct Hacq as [_ Hlive]. by repeat split.
Qed.

(** When the script starts, the helper package is in place.  The new
    directory heads [sys.path] and exists on disk, and for each of the
    seven helper modules the file [<tmpdir>/exercise_utils/<name>.py]
    holds the text of [exercise_utils/<name>.py] as read from the clone.
    The script itself was read as text from the path the caller gave. *)
Theorem load_installs_exercise_utils P file_path s r s1 py_file tmpdir :
  acquired s r ->
  NamespaceRun.load_until_exec P file_path s = (s1, Ok (py_file, tmpdir)) ->
  sys_path s1 = tmpdir :: sys_path s /\
  tmpdir ∈ tmpdirs s1 /\
  (exists bytes text,
     remote_tree r !! file_path = Some bytes /\ decode_text P bytes = Some text /\
     py_file = CStr text) /\
  forall name, name ∈ EXERCISE_UTILS_FILES ->
    exists bytes text,
      remote_tree r !! helper_source name = Some bytes /\
      decode_text P bytes = Some text /\
      files s1 !! helper_file tmpdir name = Some (CStr (ensure_str P (CStr text))).
Proof.
  intros Hacq Hreach.
  split; [by apply (load_until_exec_sys_path _ _ _ _ _ _ Hreach)|].
  unfold NamespaceRun.load_until_exec in Hreach.
  apply bind_Ok_inv in Hreach as (sa & py & Hbegin & H).
  apply bind_Ok_inv in H as (sb & d & Htmp & H).
  apply bind_Ok_inv in H as (sc & [] & Hinst & [= <- <- <-]).
  destruct (load_begin_inv P s r file_path sa py Hacq Hbegin)
    as (Hscript & [Hrepo Hlive] & _ & _).
  unfold TemporaryDirectory in Htmp.
  destruct (mkdtemp P sa) as [d'|]; [|done]. injection Htmp as <- <-.
  set (sb := set_tmpdirs _ sa) in Hinst.
  assert (Hacqb : acquired sb (checked_out r file_path)).
  { split; [done|]. cbn. by apply elem_of_union_r. }
  unfold Namespace.install_exercise_utils, makedirs in Hinst.
  apply bind_Ok_inv in Hinst as (s0 & [] & [= <-] & Hinst).
  apply bind_Ok_inv in Hinst as (s2 & [] & Hloop & [= <-]).
  split; [|split; [exact Hscript|]].
  - pose proof (install_loop_preserves tmpdirs P d'
                  (fun _ _ => eq_refl) (fun _ _ => eq_refl) sb) as Hpres.
    rewrite Hloop in Hpres. cbn in Hpres |- *. rewrite Hpres.
    by apply elem_of_union_l, elem_of_singleton.
  - destruct (install_loop_files P d' EXERCISE_UTILS_FILES sb _ s2 Hacqb Hloop)
      as [Hfiles _].
    exact Hfiles.
Qed.

Lemma load_installs_exercise_utils_witness :
  exists bytes text,
    remote_tree Demo.clone !! helper_source "git" = Some bytes /\
    decode_text Demo.platform bytes = Some text /\
    files (NamespaceRun.load_until_exec Demo.platform "hello/verify.py" Demo.acquired).1
      !! helper_file "/tmp/tmp1" "git"
    = Some (CStr (ensure_str Demo.platform (CStr text))).
Proof.
  pose (s1 := (NamespaceRun.load_until_exec Demo.platform "hello/verify.py" Demo.acquired).1).
  destruct (load_installs_exercise_utils Demo.platform "hello/verify.py" Demo.acquired
              Demo.clone s1 (CStr Demo.verify_src) "/tmp/tmp1" demo_acquired)
    as (_ & _ & _ & Hfiles); [vm_compute; reflexivity|].
  apply Hfiles. unfold EXERCISE_UTILS_FILES. do 2 right. left.
Defined.

Lemma load_with_directory P file_path s sa py_file sb tmpdir :
  Namespace.load_begin P file_path s = (sa, Ok py_file) ->
  TemporaryDirectory P sa = (sb, Ok tmpdir) ->
  Namespace.load_file_as_namespace P file_path s
  = match (Namespace.install_exercise_utils P tmpdir ;;;
           Namespace.exec_and_clean P tmpdir py_file) sb with
    | (t, Ok globals) =>
        (set_dont_write_bytecode false (cleanup tmpdir t).1, Ok (mkNamespace globals))
    | (t, Raise e) => ((cleanup tmpdir t).1, Raise e)
    end.
Proof.
  intros Hbegin Htmp.
  unfold Namespace.load_file_as_namespace. unfold bind at 1. rewrite Hbegin.
  unfold with_TemporaryDirectory. unfold bind at 1 2. rewrite Htmp.
  unfold try_finally.
  by destruct ((_ ;;; Namespace.exec_and_clean P tmpdir py_file) sb) as [t [globals|e]].
Qed.

(** Whatever happens once the temporary directory of a load exists (a
    helper module that cannot be fetched, a script that raises, a script
    that returns), the directory is deleted before the load ends, and the
    helper files that were written below it with it. *)
Theorem load_removes_package_directory P file_path s sa py_file sb tmpdir :
  Namespace.load_begin P file_path s = (sa, Ok py_file) ->
  TemporaryDirectory P sa = (sb, Ok tmpdir) ->
  (tmpdir ∉ tmpdirs (Namespace.load_file_as_namespace P file_path s).1) /\
  (forall p, is_under tmpdir p = true ->
     files (Namespace.load_file_as_namespace P file_path s).1 !! p = None) /\
  (forall name,
     files (Namespace.load_file_as_namespace P file_path s).1
       !! helper_file tmpdir name = None).
Proof.
  intros Hbegin Htmp.
  assert (Hgone : exists t outcome,
            Namespace.load_file_as_namespace P file_path s = ((cleanup tmpdir t).1, outcome)
            \/ Namespace.load_file_as_namespace P file_path s
               = (set_dont_write_bytecode false (cleanup tmpdir t).1, outcome)).
  { rewrite (load_with_directory P file_path s sa py_file sb tmpdir Hbegin Htmp).
    destruct ((_ ;;; Namespace.exec_and_clean P tmpdir py_file) sb) as [t [globals|e]].
    - exists t, (Ok (mkNamespace globals)). by right.
    - exists t, (Raise e). by left. }
  assert (Hfiles : forall p, is_under tmpdir p = true ->
            files (Namespace.load_file_as_namespace P file_path s).1 !! p = None).
  { intros p Hp. destruct Hgone as (t & outcome & [-> | ->]); cbn;
      apply map_lookup_filter_None; right; intros c _ Hout;
      unfold outside in Hout; cbn [fst] in Hout; congruence. }
  split; [|split; [exact Hfiles|]].
  - destruct Hgone as (t & outcome & [-> | ->]); cbn;
      apply not_elem_of_difference; right; by apply elem_of_singleton.
  - intros name. apply Hfiles, helper_file_under.
Qed.

Lemma load_removes_package_directory_witness :
  "/tmp/tmp1" ∉ tmpdirs (Namespace.load_file_as_namespace Demo.platform "hello/broken.py"
                            Demo.acquired).1.
Proof.
  refine (proj1 (load_removes_package_directory Demo.platform "hello/broken.py" Demo.acquired
            (Namespace.load_begin Demo.platform "hello/broken.py" Demo.acquired).1
            (CStr Demo.broken_src)
            (TemporaryDirectory Demo.platform
               (Namespace.load_begin Demo.platform "hello/broken.py" Demo.acquired).1).1
            "/tmp/tmp1" _ _)).
  - vm_compute; reflexivity.
  - vm_compute; reflexivity.
Defined.

Lemma install_failure_preserves {B} (view : State -> B) P tmpdir s s' e :
  (forall f t, view (set_fetcher f t) = view t) ->
  (forall f t, view (set_files f t) = view t) ->
  Namespace.install_exercise_utils P tmpdir s = (s', Raise e) ->
  view s' = view s.
Proof.
  intros Hfetcher Hfiles.
  unfold Namespace.install_exercise_utils, makedirs. unfold bind at 1, ret at 1.
  unfold bind at 1.
  pose proof (install_loop_preserves view P tmpdir Hfetcher Hfiles s) as Hpres.
  destruct (for_each _ _ s) as [s1 [[]|e1]]; cbn in Hpres.
  - done.
  - by intros [= <- _].
Qed.

(** A helper module that the repository does not have stops the load
    before the script is looked at: the load raises, and it would end in
    the same state with the same exception whatever the interpreter did
    with the script.  The registry has been purged once, [sys.path] is as
    before, no new directory stays behind, and the flag
    [sys.dont_write_bytecode] is left at [True]. *)
Theorem load_missing_helper P file_path s r bytes text name :
  acquired s r ->
  remote_tree r !! file_path = Some bytes ->
  decode_text P bytes = Some text ->
  (forall t, is_Some (mkdtemp P t)) ->
  name ∈ EXERCISE_UTILS_FILES ->
  remote_tree r !! helper_source name = None ->
  is_ok (Namespace.load_file_as_namespace P file_path s).2 = false /\
  (forall exec',
     Namespace.load_file_as_namespace (with_interpreter P exec') file_path s
     = Namespace.load_file_as_namespace P file_path s) /\
  registry_clean (sys_modules (Namespace.load_file_as_namespace P file_path s).1) /\
  dont_write_bytecode (Namespace.load_file_as_namespace P file_path s).1 = true /\
  sys_path (Namespace.load_file_as_namespace P file_path s).1 = sys_path s /\
  (forall d, d ∈ tmpdirs (Namespace.load_file_as_namespace P file_path s).1 ->
             d ∈ tmpdirs s).
Proof.
  intros Hacq Hblob Hdec Hmk Hname Hmissing.
  destruct (load_begin_run P s r file_path bytes text Hacq Hblob Hdec)
    as (m' & Hm' & Hbegin).
  set (sa := set_sys_modules m' _) in Hbegin.
  destruct (Hmk sa) as [d Hd].
  assert (Htmp : TemporaryDirectory P sa = (set_tmpdirs ({[d]} ∪ tmpdirs sa) sa, Ok d))
    by (unfold TemporaryDirectory; by rewrite Hd).
  set (sb := set_tmpdirs _ sa) in Htmp.
  assert (Hacqb : acquired sb (checked_out r file_path)).
  { destruct Hacq as [_ Hlive]. split; [done|]. cbn. by apply elem_of_union_r. }
  destruct (Namespace.install_exercise_utils P d sb) as [sc [[]|e]] eqn:Hinst.
  { exfalso. unfold Namespace.install_exercise_utils, makedirs in Hinst.
    apply bind_Ok_inv in Hinst as (s0 & [] & [= <-] & Hinst).
    apply bind_Ok_inv in Hinst as (s2 & [] & Hloop & _).
    destruct (install_loop_files P d EXERCISE_UTILS_FILES sb _ s2 Hacqb Hloop)
      as [Hfiles _].
    destruct (Hfiles name Hname) as (b & t & Hb & _). cbn in Hb. congruence. }
  assert (Hrun : forall Q, Namespace.load_begin Q file_path s = (sa, Ok (CStr text)) ->
            TemporaryDirectory Q sa = (sb, Ok d) ->
            Namespace.install_exercise_utils Q d sb = (sc, Raise e) ->
            Namespace.load_file_as_namespace Q file_path s = ((cleanup d sc).1, Raise e)).
  { intros Q HbQ HtQ HiQ.
    rewrite (load_with_directory Q file_path s sa _ sb d HbQ HtQ).
    unfold bind. by rewrite HiQ. }
  pose proof (keeps_install_exercise_utils P d sb) as [Hmod Hflag].
  rewrite Hinst in Hmod, Hflag. cbn [fst] in Hmod, Hflag.
  pose proof (install_failure_preserves sys_path P d sb sc e
                (fun _ _ => eq_refl) (fun _ _ => eq_refl) Hinst) as Hpath.
  pose proof (install_failure_preserves tmpdirs P d sb sc e
                (fun _ _ => eq_refl) (fun _ _ => eq_refl) Hinst) as Hdirs.
  rewrite (Hrun P Hbegin Htmp Hinst). cbn [fst snd is_ok].
  split; [done|]. split; [|split; [|split; [|split]]].
  - intros exec'. by apply (Hrun (with_interpreter P exec')).
  - cbn. rewrite Hmod. cbn. by eapply registry_clean_lookup.
  - cbn. by rewrite Hflag.
  - cbn. by rewrite Hpath.
  - intros x. cbn. rewrite Hdirs. cbn.
    intros [[->%elem_of_singleton | Hx]%elem_of_union Hne]%elem_of_difference; [|done].
    exfalso. apply Hne. by apply elem_of_singleton.
Qed.

Lemma load_missing_helper_witness :
  is_ok (Namespace.load_file_as_namespace DemoPartial.platform "hello/verify.py"
           DemoPartial.acquired).2 = false.
Proof.
  refine (proj1 (load_missing_helper DemoPartial.platform "hello/verify.py"
            DemoPartial.acquired (mkRepo "/tmp/tmp0" DemoPartial.tree [])
            (String.list_byte_of_string Demo.verify_src) Demo.verify_src "test"
            _ _ _ _ _ _)).
  - split; vm_compute; reflexivity.
  - vm_compute; reflexivity.
  - vm_compute; reflexivity.
  - intros t. by eexists.
  - unfold EXERCISE_UTILS_FILES. do 6 right. left.
  - vm_compute; reflexivity.
Defined.

(* ===================================================================== *)
(** ** More on execute_function *)
(* ===================================================================== *)

(** A parameter without a default that [params] does not supply makes
    the call fail with [TypeError] before the body runs: the process and
    the namespace are as they were, and the flag is not reset. *)
Theorem execute_function_missing_argument P self function_name sig code p
    (params : Dict) s :
  namespace self !! function_name = Some (VFunc sig code) ->
  p ∈ sig -> p_required p = true -> params !! p_name p = None ->
  Namespace.execute_function P self function_name params s
  = (s, self, Raise (TypeError "missing required argument")).
Proof.
  intros Hbound Hp Hreq Hnone.
  unfold Namespace.execute_function. rewrite Hbound. cbn [Namespace.inspect_signature].
  unfold Namespace.call.
  rewrite bool_decide_eq_true_2.
  2:{ intros k v Hk. rewrite valid_params_lookup in Hk.
      by destruct (Namespace.in_signature sig k). }
  cbn [negb].
  replace (forallb _ sig) with false; [by destruct self|].
  symmetry. apply not_true_is_false. intros Hall.
  rewrite forallb_forall in Hall. specialize (Hall p).
  rewrite Hreq in Hall. cbn in Hall.
  apply list_elem_of_In, Hall, bool_decide_eq_true in Hp as [v Hv].
  rewrite valid_params_lookup, Hnone in Hv. by destruct (Namespace.in_signature sig _).
Qed.

Lemma execute_function_missing_argument_witness :
  Namespace.execute_function Demo.platform Demo.verify_namespace "verify"
    {["unused" := VInt 1]} Demo.acquired
  = (Demo.acquired, Demo.verify_namespace, Raise (TypeError "missing required argument")).
Proof.
  apply (execute_function_missing_argument Demo.platform Demo.verify_namespace "verify"
           [mkParam "repo_path" true] 0 (mkParam "repo_path" true)).
  - vm_compute; reflexivity.
  - left.
  - reflexivity.
  - vm_compute; reflexivity.
Defined.

(** Only the entries of [params] under declared parameter names matter:
    two dictionaries that agree on those give the same call, the same
    outcome and the same final state, whatever else they contain. *)
Theorem execute_function_declared_entries_only P self function_name
    (params params' : Dict) s :
  (forall sig code k,
     namespace self !! function_name = Some (VFunc sig code) ->
     Namespace.in_signature sig k = true -> params !! k = params' !! k) ->
  Namespace.execute_function P self function_name params s
  = Namespace.execute_function P self function_name params' s.
Proof.
  intros Hagree. unfold Namespace.execute_function.
  destruct (namespace self !! function_name) as [func|] eqn:Hbound; [|done].
  destruct func as [| | | | |sig code]; try done.
  cbn [Namespace.inspect_signature].
  replace (Namespace.valid_params sig params') with (Namespace.valid_params sig params);
    [done|].
  apply map_eq. intros k. rewrite !valid_params_lookup.
  destruct (Namespace.in_signature sig k) eqn:Hk; [|done]. by eapply Hagree.
Qed.

Lemma execute_function_declared_entries_only_witness :
  Namespace.execute_function Demo.platform Demo.verify_namespace "verify"
    {["repo_path" := VStr "/tmp/x"; "unused" := VInt 1]} Demo.acquired
  = Namespace.execute_function Demo.platform Demo.verify_namespace "verify"
      {["repo_path" := VStr "/tmp/x"]} Demo.acquired.
Proof.
  apply execute_function_declared_entries_only.
  intros sig code k Hbound Hk.
  assert (Hsig : sig = [mkParam "repo_path" true]).
  { vm_compute in Hbound. by injection Hbound as <- _. }
  subst sig. unfold Namespace.in_signature in Hk. cbn [existsb p_name] in Hk.
  rewrite orb_false_r in Hk. apply String.eqb_eq in Hk as <-.
  vm_compute; reflexivity.
Defined.

(* ===================================================================== *)
(** ** GitMasteryREPL.precmd *)
(* ===================================================================== *)

Section Precmd.

Import GitMasteryREPL.



Lemma lstrip_spaces (ws x : string) : all_space ws = true -> lstrip (ws ++ x) = lstrip x.
Proof.
  induction ws as [|c ws IH]; [done|].
  cbn [all_space]. intros [Hc Hws]%andb_true_iff.
  change (String c ws ++ x) with (String c (ws ++ x)).
  cbn [lstrip]. rewrite Hc. by apply IH.
Qed.

Lemma rstrip_all_space (ws : string) : all_space ws = true -> rstrip ws = "".
Proof.
  induction ws as [|c ws IH]; [done|].
  cbn [all_space rstrip]. intros [Hc Hws]%andb_true_iff. by rewrite (IH Hws), Hc.
Qed.

Lemma rstrip_nonempty_app (a b : string) :
  rstrip b <> "" -> rstrip (a ++ b) = a ++ rstrip b.
Proof.
  intros Hb. induction a as [|c a IH]; [done|].
  change (String c a ++ b) with (String c (a ++ b)).
  change (String c a ++ rstrip b) with (String c (a ++ rstrip b)).
  cbn [rstrip]. rewrite IH. destruct (a ++ rstrip b) eqn:E; [|done].
  exfalso. apply Hb. destruct a; [done|discriminate].
Qed.

Lemma rstrip_spaces (x ws : string) : all_space ws = true -> rstrip (x ++ ws) = rstrip x.
Proof.
  intros Hws. induction x as [|c x IH].
  - by apply rstrip_all_space.
  - change (String c x ++ ws) with (String c (x ++ ws)). cbn [rstrip]. by rewrite IH.
Qed.

(** Stripping a text that carries blanks on both sides gives the text,
    provided the text itself neither starts nor ends with a blank. *)
Lemma strip_padded (ws core ws' : string) :
  all_space ws = true -> all_space ws' = true ->
  lstrip core = core -> rstrip core = core ->
  strip (ws ++ core ++ ws') = core.
Proof.
  intros Hws Hws' Hl Hr. unfold strip.
  destruct core as [|c core].
  - simpl. rewrite rstrip_spaces by done. by rewrite rstrip_all_space.
  - rewrite rstrip_nonempty_app; rewrite rstrip_spaces by done; rewrite Hr; [|done].
    by rewrite lstrip_spaces.
Qed.





(** The prefix needs something after it: [gitmastery] alone, with or
    without blanks around it, is handed on as typed. *)
Lemma precmd_bare_prefix (ws ws' : string) :
  all_space ws = true -> all_space ws' = true ->
  precmd (ws ++ "gitmastery" ++ ws') = ws ++ "gitmastery" ++ ws'.
Proof.
  intros Hws Hws'. unfold precmd. by rewrite strip_padded.
Qed.

End Precmd.
